(** * openbr/plugins/validate.cpp: cross-validation harness and gating distances

    A shallow embedding of [CrossValidateTransform], [FilterDistance] and
    [MetadataDistance].  C++ [int] values are integers of [Z]; where the
    code adds one to an [int] that a record supplies (the partition count
    of [train], the counter of the range loop of [MetadataDistance]) the
    32-bit wrap-around is written out with [wrap32].  A [QList] is a
    [list] read by position through
    [QList_at], a [QHash] is a [gmap], a [QString] is a [string].  The two
    [float] values a distance returns, [-std::numeric_limits<float>::max()]
    and [0], are both integers and are written as such. *)

From stdpp Require Import base gmap list strings pretty sorting.
From Stdlib Require Import ZArith Lia Ascii.

Local Open Scope Z_scope.

(** ** Outcome of a call *)

(** A call either returns or stops the program: [Q_ASSERT] of a [QList]
    accessor, [qFatal] of a metadata accessor, or an integer division by
    zero. *)
Inductive error : Type :=
  | AssertFailed (what : string)
  | Fatal (what : string)
  | DivisionByZero.

Inductive result (A : Type) : Type :=
  | Ok (a : A)
  | Err (e : error).
Arguments Ok {A} a.
Arguments Err {A} e.

#[global] Instance result_ret : MRet result := λ A a, Ok a.
#[global] Instance result_bind : MBind result := λ A B k r,
  match r with
  | Ok a => k a
  | Err e => Err e
  end.

Definition is_Ok {A} (r : result A) : bool :=
  match r with Ok _ => true | Err _ => false end.

(** A method of an object with state [S]: the outcome and the state the
    object is left in. *)
Record method (S A : Type) : Type := Method { run : S → result A * S }.
Arguments Method {S A} run.
Arguments run {S A} m s.

#[global] Instance method_ret {S} : MRet (method S) := λ A a,
  Method (λ s, (Ok a, s)).
#[global] Instance method_bind {S} : MBind (method S) := λ A B k m,
  Method (λ s, match run m s with
               | (Ok a, s') => run (k a) s'
               | (Err e, s') => (Err e, s')
               end).

Definition get_self {S} : method S S := Method (λ s, (Ok s, s)).
Definition put_self {S} (s : S) : method S unit := Method (λ _, (Ok tt, s)).
Definition lift {S A} (r : result A) : method S A := Method (λ s, (r, s)).

(** ** 32-bit integers *)

(** The [int] an integer wraps to: its 32-bit two's complement value. *)
Definition wrap32 (n : Z) : Z := (n + 2 ^ 31) `mod` 2 ^ 32 - 2 ^ 31.

(** ** Qt containers and strings *)

Definition QString_isEmpty (s : string) : bool :=
  match s with
  | EmptyString => true
  | String _ _ => false
  end.

(** [QString::number(int)]: the decimal rendering. *)
Definition QString_number (n : Z) : string := pretty n.

Definition QList_size {A} (l : list A) : Z := Z.of_nat (length l).

(** [QList::at] and [operator[]] assert that the position is in range. *)
Definition QList_at {A} (l : list A) (i : Z) : result A :=
  if bool_decide (0 ≤ i < QList_size l) then
    match l !! Z.to_nat i with
    | Some x => Ok x
    | None => Err (AssertFailed "index out of range")
    end
  else Err (AssertFailed "index out of range").

(** [QList::first] asserts that the list is not empty. *)
Definition QList_first {A} (l : list A) : result A :=
  match l with
  | x :: _ => Ok x
  | [] => Err (AssertFailed "!isEmpty()")
  end.

(** [QList::removeAt] does nothing when the position is out of range. *)
Definition QList_removeAt {A} (i : Z) (l : list A) : list A :=
  if bool_decide (0 ≤ i < QList_size l) then delete (Z.to_nat i) l else l.

(** ** Records: files, templates, template lists *)

Section Data.

(** The coordinate type of [QPointF] (a C++ [double]). *)
Context {qreal : Type}.

Inductive QVariant : Type :=
  | VString (s : string)
  | VInt (n : Z)
  | VPointF (x y : qreal).

Record File : Type := mkFile {
  name : string;
  m_metadata : gmap string QVariant
}.

Record Template : Type := mkTemplate { file : File }.

Definition TemplateList : Type := list Template.

Definition files (data : TemplateList) : list File := file <$> data.

(** Modelled from the spec: [File::get<T>(key, defaultValue)] (declared
    in openbr_internal.h), the collaborator [get(Record, key, default)
    -> typed value]: the value stored under the key when there is one
    of the requested type, the default otherwise. *)
Definition File_get_int (f : File) (key : string) (defaultValue : Z) : Z :=
  match m_metadata f !! key with
  | Some (VInt n) => n
  | _ => defaultValue
  end.

(** Modelled from the spec: [File::get<QString>(key, defaultValue)], as
    [File_get_int]. *)
Definition File_get_QString (f : File) (key : string)
    (defaultValue : string) : string :=
  match m_metadata f !! key with
  | Some (VString s) => s
  | _ => defaultValue
  end.

(** Modelled from the spec: [File::get<QPointF>(key, defaultValue)], as
    [File_get_int]. *)
Definition File_get_QPointF (f : File) (key : string)
    (defaultValue : qreal * qreal) : qreal * qreal :=
  match m_metadata f !! key with
  | Some (VPointF x y) => (x, y)
  | _ => defaultValue
  end.

(** Modelled from the spec: [File::get<QString>(key)] without a default
    (declared in openbr_internal.h).  The data model gives every record
    its identity attribute; a record without it is outside that model
    and stops the call. *)
Definition File_get_QString_required (f : File) (key : string)
    : result string :=
  match m_metadata f !! key with
  | Some (VString s) => Ok s
  | _ => Err (Fatal "Missing key")
  end.

(** The file holds [value] under [key]. *)
Definition File_matches (f : File) (key value : string) : bool :=
  match m_metadata f !! key with
  | Some (VString s) => bool_decide (s = value)
  | _ => false
  end.

(** Modelled from the spec: [TemplateList::find(key, value)] (declared
    in openbr_internal.h), the collaborator [find(Dataset, key, value)
    -> ordered sequence of matching positions]; [find_from i] numbers
    the positions from [i]. *)
Fixpoint find_from (i : Z) (key value : string) (data : TemplateList)
    : list Z :=
  match data with
  | [] => []
  | t :: rest =>
      if File_matches (file t) key value
      then i :: find_from (i + 1) key value rest
      else find_from (i + 1) key value rest
  end.

(** Modelled from the spec: [TemplateList::find], see [find_from]. *)
Definition TemplateList_find (data : TemplateList) (key value : string)
    : list Z :=
  find_from 0 key value data.

End Data.

Arguments QVariant qreal : clear implicits.
Arguments File qreal : clear implicits.
Arguments Template qreal : clear implicits.
Arguments TemplateList qreal : clear implicits.

(** ** Sorting helper and data streams *)

(** [before descending x y]: [x] comes strictly before [y] in the order
    asked for. *)
Definition before (descending : bool) (x y : Z) : bool :=
  if descending then y <? x else x <? y.

(** Modelled from the spec: [Common::Sort(vals, descending)] (declared in
    openbr/core/common.h), whose result [train] walks to remove positions
    "sorted by position descending and deduplicated": every value of
    [vals] once, paired with its first position in [vals], in the order
    asked for.  [Sort_insert] puts one pair in its place. *)
Fixpoint Sort_insert (descending : bool) (p : Z * Z) (sorted : list (Z * Z))
    : list (Z * Z) :=
  match sorted with
  | [] => [p]
  | q :: rest =>
      if before descending p.1 q.1 then p :: q :: rest
      else if bool_decide (p.1 = q.1) then q :: rest
      else q :: Sort_insert descending p rest
  end.

(** Modelled from the spec: [Common::Sort], see [Sort_insert]. *)
Definition Common_Sort (vals : list Z) (descending : bool) : list (Z * Z) :=
  foldl (λ sorted p, Sort_insert descending p sorted) []
        (imap (λ i v, (v, Z.of_nat i)) vals).

(** A [QDataStream] over a byte sequence; a byte is an integer below 256. *)
Definition QDataStream : Type := list Z.

(** [stream << int]: four bytes, most significant first, of the 32-bit
    two's complement. *)
Definition write_int32 (n : Z) (stream : QDataStream) : QDataStream :=
  stream ++ [Z.land (Z.shiftr n 24) 255; Z.land (Z.shiftr n 16) 255;
             Z.land (Z.shiftr n 8) 255; Z.land n 255].

Definition int32_of_bits (u : Z) : Z :=
  if Z.testbit u 31 then u - 2 ^ 32 else u.

(** [stream >> int]: reads four bytes; a stream that is too short gives 0
    and is left at its end. *)
Definition read_int32 (stream : QDataStream) : Z * QDataStream :=
  match stream with
  | b3 :: b2 :: b1 :: b0 :: rest =>
      (int32_of_bits (Z.lor (Z.shiftl b3 24) (Z.lor (Z.shiftl b2 16)
                        (Z.lor (Z.shiftl b1 8) b0))), rest)
  | _ => (0, [])
  end.

(** ** The model abstraction *)

(** The interface [br::Transform] of the model a [CrossValidateTransform]
    wraps: the factory [Transform::make], training, projection of [src]
    into [dst], the bytes [store] appends to a stream, and [load] reading
    a model back from the front of a stream. *)
Class Transform (qreal T : Type) : Type := {
  Transform_make : string → T;
  Transform_train : T → TemplateList qreal → T;
  Transform_project : T → Template qreal → Template qreal → Template qreal;
  Transform_store : T → list Z;
  Transform_load : T → QDataStream → T * QDataStream
}.

(** ** CrossValidateTransform *)

Module CrossValidateTransform.
Section Methods.

Context {qreal T : Type} `{!Transform qreal T}.

Record t : Type := mk {
  description : string;
  leaveOneOut : bool;
  transforms : list T
}.

Definition set_transforms (self : t) (ts : list T) : t :=
  {| description := description self;
     leaveOneOut := leaveOneOut self;
     transforms := ts |}.

(** The first loop of [train]: every file's partition and the running
    [numPartitions]; [partitions.last()] is the value just appended and
    [partitions.last()+1] an [int] addition. *)
Definition scan_partitions (data : TemplateList qreal) : Z * list Z :=
  foldl (λ '(numPartitions, partitions) f,
           let partition := File_get_int f "Partition" 0 in
           (Z.max numPartitions (wrap32 (partition + 1)),
            partitions ++ [partition]))
        (0, []) (files data).

(** [while (transforms.size() < n) transforms.append(make(description))];
    [n] rounds are enough for the loop to leave. *)
Fixpoint grow (rounds : nat) (n : Z) (d : string) (ts : list T) : list T :=
  match rounds with
  | O => ts
  | S rounds' =>
      if bool_decide (QList_size ts < n)
      then grow rounds' n d (ts ++ [Transform_make d])
      else ts
  end.

Definition grow_to (n : Z) (d : string) (ts : list T) : list T :=
  grow (Z.to_nat n) n d ts.

(** The body of the scan [for (j = size-1; j >= 0; j--)] for partition
    [i]: what one record adds to [removed]. *)
Definition scan_body (loo : bool) (partitions : list Z)
    (partitionedData : TemplateList qreal) (i j : Z) (removed : list Z)
    : result (list Z) :=
  if loo then
    tj ← QList_at partitionedData j;
    subject ← File_get_QString_required (file tj) "Subject";
    let subjectIndices :=
      TemplateList_find partitionedData "Subject" subject in
    if bool_decide (QList_size subjectIndices < i) then
      if bool_decide (QList_size subjectIndices = 0) then Err DivisionByZero
      else
        p ← QList_at subjectIndices (Z.rem i (QList_size subjectIndices));
        mret (removed ++ [p])
    else mret removed
  else
    pj ← QList_at partitions j;
    if bool_decide (pj = i) then mret (removed ++ [j]) else mret removed.

(** The scan from [j = n - 1] down to [0]. *)
Fixpoint scan (loo : bool) (partitions : list Z)
    (partitionedData : TemplateList qreal) (i : Z) (n : nat)
    (removed : list Z) : result (list Z) :=
  match n with
  | O => mret removed
  | S j =>
      removed' ← scan_body loo partitions partitionedData i (Z.of_nat j)
                            removed;
      scan loo partitions partitionedData i j removed'
  end.

(** [foreach (pair, Common::Sort(removed, true))
      partitionedData.removeAt(pair.first)]. *)
Definition remove_sorted (removed : list Z)
    (partitionedData : TemplateList qreal) : TemplateList qreal :=
  foldl (λ pd pair, QList_removeAt pair.1 pd) partitionedData
        (Common_Sort removed true).

(** The training set of partition [i]. *)
Definition partition_data (loo : bool) (partitions : list Z)
    (data : TemplateList qreal) (i : Z) : result (TemplateList qreal) :=
  removed ← scan loo partitions data i (length data) [];
  mret (remove_sorted removed data).

(** One round of the loop over the partitions: the job that trains
    [transforms[i]] on its training set.  The jobs run on distinct
    models and on copies of the data, so the state after
    [waitForFinished] is the one reached by running them in turn.  The
    value is the job: the model's index and the data it is given. *)
Definition train_partition (partitions : list Z)
    (data : TemplateList qreal) (i : Z)
    : method t (Z * TemplateList qreal) :=
  self ← get_self;
  partitionedData ←
    lift (partition_data (leaveOneOut self) partitions data i);
  m ← lift (QList_at (transforms self) i);
  put_self (set_transforms self
    (<[Z.to_nat i := Transform_train m partitionedData]>
       (transforms self)));;
  mret (i, partitionedData).

Fixpoint for_each {A} (body : Z → method t A) (indices : list Z)
    : method t (list A) :=
  match indices with
  | [] => mret []
  | i :: rest =>
      a ← body i;
      others ← for_each body rest;
      mret (a :: others)
  end.

(** [train]; the value lists the training jobs it started. *)
Definition train (data : TemplateList qreal)
    : method t (list (Z * TemplateList qreal)) :=
  let '(numPartitions, partitions) := scan_partitions data in
  self ← get_self;
  put_self (set_transforms self
    (grow_to numPartitions (description self) (transforms self)));;
  if bool_decide (numPartitions < 2) then
    self ← get_self;
    m ← lift (QList_first (transforms self));
    put_self (set_transforms self
      (<[0%nat := Transform_train m data]> (transforms self)));;
    mret [(0, data)]
  else
    for_each (train_partition partitions data) (seqZ 0 numPartitions).

Definition project (src dst : Template qreal) : method t (Template qreal) :=
  self ← get_self;
  m ← lift (QList_at (transforms self)
                     (File_get_int (file src) "Partition" 0));
  mret (Transform_project m src dst).

Definition store (stream : QDataStream) : method t QDataStream :=
  self ← get_self;
  mret (foldl (λ out transform, out ++ Transform_store transform)
              (write_int32 (QList_size (transforms self)) stream)
              (transforms self)).

(** [foreach (transform, transforms) transform->load(stream)]. *)
Fixpoint load_each (ts : list T) (stream : QDataStream)
    : list T * QDataStream :=
  match ts with
  | [] => ([], stream)
  | transform :: rest =>
      let '(transform', stream') := Transform_load transform stream in
      let '(rest', stream'') := load_each rest stream' in
      (transform' :: rest', stream'')
  end.

Definition load (stream : QDataStream) : method t QDataStream :=
  self ← get_self;
  let '(numTransforms, stream) := read_int32 stream in
  let '(ts, stream) :=
    load_each (grow_to numTransforms (description self) (transforms self))
              stream in
  put_self (set_transforms self ts);;
  mret stream.

End Methods.
Arguments t T : clear implicits.
End CrossValidateTransform.

(** ** Gating distances *)

(** [std::numeric_limits<float>::max()], the integer (2 - 2^-23) * 2^127. *)
Definition FLT_MAX : Z := 2 ^ 128 - 2 ^ 104.

Module CrossValidateDistance.
Section Compare.

Context {qreal : Type}.

Definition compare (a b : Template qreal) : Z :=
  let partitionA := File_get_int (file a) "Partition" 0 in
  let partitionB := File_get_int (file b) "Partition" 0 in
  if bool_decide (partitionA ≠ partitionB) then - FLT_MAX else 0.

End Compare.
End CrossValidateDistance.

Module FilterDistance.
Section Compare.

Context {qreal : Type}.

(** The global table [Globals->filters]. *)
Variable filters : gmap string (list string).

(** [foreach (value, Globals->filters[key])
      if (metadata == value) { keep = true; break; }]. *)
Fixpoint keep_loop (metadata : string) (values : list string) : bool :=
  match values with
  | [] => false
  | value :: rest =>
      if bool_decide (metadata = value) then true
      else keep_loop metadata rest
  end.

(** The loop over the keys; [filters[key]] of an absent key is the
    empty list. *)
Fixpoint compare_keys (keys : list string) (a : Template qreal) : Z :=
  match keys with
  | [] => 0
  | key :: rest =>
      let metadata := File_get_QString (file a) key "" in
      if bool_decide (default [] (filters !! key) = []) then
        compare_keys rest a
      else if QString_isEmpty metadata then - FLT_MAX
      else if keep_loop metadata (default [] (filters !! key)) then
        compare_keys rest a
      else - FLT_MAX
  end.

Definition compare (a b : Template qreal) : Z :=
  compare_keys (map_to_list filters).*1 a.

End Compare.
End FilterDistance.

(** Conversion of a [qreal] to [int], and the coordinate of the default
    [QPointF()]. *)
Class Qreal (qreal : Type) : Type := {
  qreal_zero : qreal;
  qreal_to_int : qreal → Z
}.

(** The helpers of openbr/core/qtutils.h that [MetadataDistance] calls:
    [toString] renders a point, [toPoint] parses one and reports through
    [ok] whether it could. *)
Class QtUtils (qreal : Type) : Type := {
  QtUtils_toString : qreal * qreal → string;
  QtUtils_toPoint : string → option (qreal * qreal)
}.

Module MetadataDistance.
Section Compare.

Context {qreal : Type} `{!Qreal qreal} `{!QtUtils qreal}.

(** The property [filters]: the keys to compare. *)
Variable filters : list string.

(** [while (value <= upperBound) { if (aValue == QString::number(value))
      { keep = true; break; } value++; }] where [value++] does not wrap
    ([upperBound] below the largest [int]): the loop leaves within
    [upperBound - value + 1] rounds, and this is what it leaves with.
    [range_loop_int] below is the loop on 32-bit [int]s. *)
Fixpoint range_loop (rounds : nat) (aValue : string)
    (value upperBound : Z) : bool :=
  match rounds with
  | O => false
  | S rounds' =>
      if bool_decide (value ≤ upperBound) then
        if bool_decide (aValue = QString_number value) then true
        else range_loop rounds' aValue (value + 1) upperBound
      else false
  end.

(** The query value of [b] under [key], after the fallback to a point. *)
Definition query_value (b : Template qreal) (key : string) : string :=
  let bValue := File_get_QString (file b) key "" in
  if QString_isEmpty bValue
  then QtUtils_toString
         (File_get_QPointF (file b) key (qreal_zero, qreal_zero))
  else bValue.

(** The value of [keep] for a key whose two values are not empty. *)
Definition keep (aValue bValue : string) : bool :=
  match QtUtils_toPoint bValue with
  | Some range =>
      let value := qreal_to_int range.1 in
      let upperBound := qreal_to_int range.2 in
      range_loop (Z.to_nat (upperBound - value + 1)) aValue value upperBound
  | None => bool_decide (aValue = bValue)
  end.

Fixpoint compare_keys (keys : list string) (a b : Template qreal) : Z :=
  match keys with
  | [] => 0
  | key :: rest =>
      let aValue := File_get_QString (file a) key "" in
      let bValue := query_value b key in
      if QString_isEmpty aValue || QString_isEmpty bValue then
        compare_keys rest a b
      else if keep aValue bValue then compare_keys rest a b
      else - FLT_MAX
  end.

Definition compare (a b : Template qreal) : Z := compare_keys filters a b.

(** The range loop on 32-bit [int]s, counted in rounds: [None] while the
    loop has not left after [rounds] rounds; [value++] wraps at the
    largest [int]. *)
Fixpoint range_loop_int (rounds : nat) (aValue : string)
    (value upperBound : Z) : option bool :=
  match rounds with
  | O => None
  | S rounds' =>
      if bool_decide (value ≤ upperBound) then
        if bool_decide (aValue = QString_number value) then Some true
        else range_loop_int rounds' aValue (wrap32 (value + 1)) upperBound
      else Some false
  end.

(** The value of [keep], when the range loop gets [rounds] rounds. *)
Definition keep_int (rounds : nat) (aValue bValue : string) : option bool :=
  match QtUtils_toPoint bValue with
  | Some range =>
      range_loop_int rounds aValue (qreal_to_int range.1)
                     (qreal_to_int range.2)
  | None => Some (bool_decide (aValue = bValue))
  end.

(** [compare] with [rounds] rounds for every range loop: [None] when a
    loop has not left. *)
Fixpoint compare_keys_int (rounds : nat) (keys : list string)
    (a b : Template qreal) : option Z :=
  match keys with
  | [] => Some 0
  | key :: rest =>
      let aValue := File_get_QString (file a) key "" in
      let bValue := query_value b key in
      if QString_isEmpty aValue || QString_isEmpty bValue then
        compare_keys_int rounds rest a b
      else
        match keep_int rounds aValue bValue with
        | Some true => compare_keys_int rounds rest a b
        | Some false => Some (- FLT_MAX)
        | None => None
        end
  end.

Definition compare_int (rounds : nat) (a b : Template qreal) : option Z :=
  compare_keys_int rounds filters a b.

End Compare.
End MetadataDistance.

(** ** A concrete model, points with integer coordinates, sample records *)

Module Sample.

(** A model is a number; training adds the size of the training set,
    projection writes the model's low byte into the output. *)
Definition model_project (m : Z) (src dst : Template Z) : Template Z :=
  mkTemplate
    (mkFile (name (file dst))
            (<["Model" := VInt (Z.land m 255)]> (m_metadata (file src)))).

Definition model_load (m : Z) (stream : QDataStream) : Z * QDataStream :=
  match stream with
  | b :: rest => (b, rest)
  | [] => (m, [])
  end.

#[global] Instance model : Transform Z Z := {|
  Transform_make := λ d, Z.of_nat (String.length d);
  Transform_train := λ m data, m + QList_size data;
  Transform_project := model_project;
  Transform_store := λ m, [Z.land m 255];
  Transform_load := model_load
|}.

#[global] Instance int_coordinates : Qreal Z := {|
  qreal_zero := 0;
  qreal_to_int := λ x, x
|}.

Fixpoint parse_digits (s : string) (acc : Z) : option Z :=
  match s with
  | EmptyString => Some acc
  | String c rest =>
      let d := Z.of_nat (Ascii.nat_of_ascii c) - 48 in
      if bool_decide (0 ≤ d ≤ 9) then parse_digits rest (10 * acc + d)
      else None
  end.

Definition parse_int (s : string) : option Z :=
  match s with
  | EmptyString => None
  | String "-"%char (String c rest) => Z.opp <$> parse_digits (String c rest) 0
  | String "-"%char EmptyString => None
  | _ => parse_digits s 0
  end.

(** Splits ["x,y)"] into ["x"] and ["y"]. *)
Fixpoint split_words (s : string) (x : string) : option (string * string) :=
  match s with
  | EmptyString => None
  | String ","%char rest =>
      match String.rev rest with
      | String ")"%char y => Some (String.rev x, String.rev y)
      | _ => None
      end
  | String c rest => split_words rest (String c x)
  end.

(** Modelled from the spec: [QtUtils::toString(QPointF)] and
    [QtUtils::toPoint(QString, ok)] (openbr/core/qtutils.h), for the
    points the spec reads as an inclusive integer range: ["(x,y)"] with
    decimal integers. *)
Definition toString (p : Z * Z) : string :=
  "(" +:+ pretty p.1 +:+ "," +:+ pretty p.2 +:+ ")".

(** Modelled from the spec: [QtUtils::toPoint], see [toString]. *)
Definition toPoint (s : string) : option (Z * Z) :=
  match s with
  | String "("%char rest =>
      '(x, y) ← split_words rest EmptyString;
      x ← parse_int x;
      y ← parse_int y;
      Some (x, y)
  | _ => None
  end.

#[global] Instance integer_points : QtUtils Z := {|
  QtUtils_toString := toString;
  QtUtils_toPoint := toPoint
|}.

Definition record (name : string) (metadata : list (string * QVariant Z))
    : Template Z :=
  mkTemplate (mkFile name (list_to_map metadata)).

(** Four records of two subjects, one partition each. *)
Definition r0 : Template Z :=
  record "r0" [("Partition", VInt 0); ("Subject", VString "s")].
Definition r1 : Template Z :=
  record "r1" [("Partition", VInt 1); ("Subject", VString "s")].
Definition r2 : Template Z :=
  record "r2" [("Partition", VInt 2); ("Subject", VString "u")].
Definition r3 : Template Z :=
  record "r3" [("Partition", VInt 3); ("Subject", VString "u")].

Definition dataset : TemplateList Z := [r0; r1; r2; r3].

Definition fresh (leaveOneOut : bool) : CrossValidateTransform.t Z :=
  CrossValidateTransform.mk "Identity" leaveOneOut [].

Definition trained : CrossValidateTransform.t Z :=
  CrossValidateTransform.mk "Identity" false [300; 2; 5].

(** The filter table and the records of the allowlist scenario. *)
Definition gender_filter : gmap string (list string) :=
  {[ "Gender" := ["M"] ]}.

Definition male : Template Z := record "m" [("Gender", VString "M")].
Definition female : Template Z := record "f" [("Gender", VString "F")].
Definition unknown : Template Z := record "u" [].

(** The records of the range scenario. *)
Definition aged_30 : Template Z := record "a" [("Age", VString "30")].
Definition range_20_40 : Template Z := record "b" [("Age", VPointF 20 40)].
Definition range_41_50 : Template Z := record "c" [("Age", VPointF 41 50)].

(** The four records with other partitions and the same subjects. *)
Definition regrouped : TemplateList Z :=
  [record "q0" [("Partition", VInt 3); ("Subject", VString "s")];
   record "q1" [("Subject", VString "s")];
   record "q2" [("Partition", VInt 1); ("Subject", VString "u")];
   record "q3" [("Partition", VInt 1); ("Subject", VString "u")]].

(** A fifth record, the only one of its subject. *)
Definition loner : Template Z :=
  record "r4" [("Partition", VInt 2); ("Subject", VString "w")].

Definition dataset_with_loner : TemplateList Z := dataset ++ [loner].

(** The ensemble after [train] of [dataset] by [fresh false]. *)
Definition cross_validated : CrossValidateTransform.t Z :=
  CrossValidateTransform.mk "Identity" false [11; 11; 11; 11].

(** An ensemble of five models. *)
Definition larger : CrossValidateTransform.t Z :=
  CrossValidateTransform.mk "Identity" false [1; 2; 3; 4; 5].

(** A range whose bounds are the wrong way round. *)
Definition range_40_20 : Template Z := record "d" [("Age", VPointF 40 20)].


(** A record in the partition of the largest [int]. *)
Definition last_partition : Template Z :=
  record "z" [("Partition", VInt 2147483647)].

End Sample.

(** ** Vocabulary of the statements *)

(** The records of [l], numbered from [o], whose number is not in [ps]. *)
Fixpoint kept_from {A} (o : Z) (ps : list Z) (l : list A) : list A :=
  match l with
  | [] => []
  | x :: rest =>
      if bool_decide (o ∈ ps) then kept_from (o + 1) ps rest
      else x :: kept_from (o + 1) ps rest
  end.

(** The order [Common::Sort] is asked for, as a relation. *)
Definition strictly (descending : bool) (x y : Z) : Prop :=
  before descending x y = true.

(** [MetadataDistance] lets a key pass: a value is empty, or the query
    value parses as a point and the target value is the rendering of an
    integer between its coordinates as [int], or it does not parse and the
    two values are equal. *)
Definition MetadataDistance_accepts {qreal : Type} `{!Qreal qreal} `{!QtUtils qreal}
    (a b : Template qreal) (key : string) : Prop :=
  let aValue := File_get_QString (file a) key "" in
  let bValue := MetadataDistance.query_value b key in
  aValue = "" ∨ bValue = "" ∨
  match QtUtils_toPoint bValue with
  | Some (x, y) =>
      ∃ v, qreal_to_int x ≤ v ≤ qreal_to_int y ∧ aValue = QString_number v
  | None => aValue = bValue
  end.



(** The record holds a subject. *)
Definition has_subject {qreal} (t : Template qreal) : Prop :=
  is_Ok (File_get_QString_required (file t) "Subject") = true.

(** The leave-one-out rule for partition [i] at one record [t] of [data]:
    [c] is what the record adds to the exclusion list. *)
Definition leave_one_out_rule {qreal} (i : Z) (data : TemplateList qreal)
    (t : Template qreal) (c : list Z) : Prop :=
  let S := TemplateList_find data "Subject"
             (File_get_QString (file t) "Subject" "") in
  (QList_size S < i →
   ∃ p, S !! Z.to_nat (i `mod` QList_size S) = Some p ∧ c = [p]) ∧
  (i ≤ QList_size S → c = []).

(** Two models behave alike: they project every record alike. *)
Definition behaves_as {qreal T} `{!Transform qreal T} (m' m : T) : Prop :=
  ∀ src dst, Transform_project m' src dst = Transform_project m src dst.

(** The contract of the model abstraction for persistence: a model's
    bytes are self-delimited, and loading them, into whatever model,
    gives a model that behaves as the stored one. *)
Definition store_load_contract (qreal T : Type) `{!Transform qreal T} : Prop :=
  ∀ (m0 m : T) (rest : QDataStream),
    ∃ m', Transform_load m0 (Transform_store m ++ rest) = (m', rest) ∧
          behaves_as m' m.

(** ** Facts about the helpers *)

Lemma FLT_MAX_pos : 0 < FLT_MAX.
Proof. by vm_compute. Qed.

Lemma QString_isEmpty_true (s : string) : QString_isEmpty s = true ↔ s = "".
Proof. destruct s; simpl; split; congruence. Qed.

Lemma QString_isEmpty_false (s : string) : QString_isEmpty s = false ↔ s ≠ "".
Proof. destruct s; simpl; split; congruence. Qed.

(** ** The loops of [FilterDistance] *)

Section FilterDistanceFacts.
Context {qreal : Type}.
Variable filters : gmap string (list string).

Lemma keep_loop_elem_of (metadata : string) (values : list string) :
  FilterDistance.keep_loop metadata values = true ↔ metadata ∈ values.
Proof.
  induction values as [|value rest IH]; simpl.
  - split; [congruence | by intros ?%elem_of_nil].
  - rewrite elem_of_cons. case_bool_decide as Heq.
    + split; auto.
    + rewrite IH. split; [auto|]. by intros [?|?].
Qed.

(** What makes one key reject the record. *)
Lemma filter_compare_keys_cases (keys : list string) (a : Template qreal) :
  FilterDistance.compare_keys filters keys a = 0 ∨
  FilterDistance.compare_keys filters keys a = - FLT_MAX.
Proof.
  induction keys as [|key rest IH]; simpl; [by left|].
  repeat case_match; auto.
Qed.

Lemma filter_compare_keys_rejects (keys : list string) (a : Template qreal) :
  FilterDistance.compare_keys filters keys a = - FLT_MAX ↔
  ∃ key allowed, key ∈ keys ∧ filters !! key = Some allowed ∧ allowed ≠ [] ∧
    (File_get_QString (file a) key "" = "" ∨
     File_get_QString (file a) key "" ∉ allowed).
Proof.
  induction keys as [|key rest IH]; simpl.
  - split; [by vm_compute | intros (? & ? & []%elem_of_nil & _)].
  - case_bool_decide as Hempty.
    { rewrite IH. split.
      - intros (k & al & Hk & ?); exists k, al. rewrite elem_of_cons; auto.
      - intros (k & al & [->|Hk]%elem_of_cons & Hl & Hne & Hrej).
        + rewrite Hl in Hempty. simpl in Hempty. done.
        + exists k, al; auto. }
    destruct (filters !! key) as [allowed|] eqn:Hl; simpl in *; [|done].
    destruct (QString_isEmpty _) eqn:He.
    { apply QString_isEmpty_true in He. split; [|done]. intros _.
      exists key, allowed. rewrite elem_of_cons. auto. }
    destruct (FilterDistance.keep_loop _ _) eqn:Hk.
    + apply keep_loop_elem_of in Hk. apply QString_isEmpty_false in He.
      rewrite IH. split.
      * intros (k & al & Hin & ?); exists k, al. rewrite elem_of_cons; auto.
      * intros (k & al & [->|Hin]%elem_of_cons & Hl' & Hne & Hrej).
        -- rewrite Hl in Hl'. injection Hl' as <-. by destruct Hrej.
        -- exists k, al; auto.
    + split; [|done]. intros _. exists key, allowed.
      rewrite elem_of_cons. repeat split; auto. right.
      intros Hin%keep_loop_elem_of. congruence.
Qed.

End FilterDistanceFacts.

(** ** The loops of [MetadataDistance] *)

Section MetadataDistanceFacts.
Context {qreal : Type} `{!Qreal qreal} `{!QtUtils qreal}.

Lemma range_loop_spec (rounds : nat) (aValue : string) (value upperBound : Z) :
  MetadataDistance.range_loop rounds aValue value upperBound = true ↔
  ∃ v, value ≤ v ≤ upperBound ∧ v < value + Z.of_nat rounds ∧
       aValue = QString_number v.
Proof.
  revert value. induction rounds as [|rounds IH]; intros value; simpl.
  - split; [congruence | intros (v & ? & ? & _); lia].
  - case_bool_decide as Hle.
    + case_bool_decide as Heq.
      * split; [|done]. intros _. exists value. split; [lia|]. split; [lia|done].
      * rewrite IH. split; intros (v & Hv & Hr & Ha); exists v.
        -- split; [lia|]. split; [lia|done].
        -- assert (v ≠ value) by congruence. split; [lia|]. split; [lia|done].
    + split; [congruence | intros (v & ? & _); lia].
Qed.

Lemma keep_spec (aValue bValue : string) :
  MetadataDistance.keep aValue bValue = true ↔
  match QtUtils_toPoint bValue with
  | Some (x, y) =>
      ∃ v, qreal_to_int x ≤ v ≤ qreal_to_int y ∧ aValue = QString_number v
  | None => aValue = bValue
  end.
Proof.
  unfold MetadataDistance.keep.
  destruct (QtUtils_toPoint bValue) as [[x y]|]; simpl.
  - rewrite range_loop_spec. split.
    + intros (v & ? & _ & ?). by exists v.
    + intros (v & ? & ?). exists v. split; [done|]. split; [lia|done].
  - by rewrite bool_decide_eq_true.
Qed.

Lemma accepts_decided (a b : Template qreal) (key : string) :
  QString_isEmpty (File_get_QString (file a) key "")
  || QString_isEmpty (MetadataDistance.query_value b key)
  || MetadataDistance.keep (File_get_QString (file a) key "")
                           (MetadataDistance.query_value b key) = true ↔
  MetadataDistance_accepts a b key.
Proof.
  unfold MetadataDistance_accepts.
  rewrite !orb_true_iff, !QString_isEmpty_true, keep_spec. tauto.
Qed.

Lemma metadata_compare_keys_cons (key : string) (rest : list string)
    (a b : Template qreal) :
  MetadataDistance.compare_keys (key :: rest) a b =
  if QString_isEmpty (File_get_QString (file a) key "")
     || QString_isEmpty (MetadataDistance.query_value b key)
     || MetadataDistance.keep (File_get_QString (file a) key "")
                              (MetadataDistance.query_value b key)
  then MetadataDistance.compare_keys rest a b
  else - FLT_MAX.
Proof.
  simpl. destruct (QString_isEmpty _ || QString_isEmpty _); simpl; [done|].
  by destruct (MetadataDistance.keep _ _).
Qed.

Lemma metadata_compare_keys_accepts (keys : list string) (a b : Template qreal) :
  (MetadataDistance.compare_keys keys a b = 0 ↔
   ∀ key, key ∈ keys → MetadataDistance_accepts a b key) ∧
  (MetadataDistance.compare_keys keys a b = 0 ∨
   MetadataDistance.compare_keys keys a b = - FLT_MAX).
Proof.
  induction keys as [|key rest [IH1 IH2]].
  - simpl. split; [|by left]. split; [|done]. by intros _ ? ?%elem_of_nil.
  - rewrite metadata_compare_keys_cons.
    pose proof (accepts_decided a b key) as Hd.
    destruct (_ || _ || _).
    + split; [|done]. rewrite IH1. split.
      * intros Hall k [->|?]%elem_of_cons; [by apply Hd | by apply Hall].
      * intros Hall k Hk. apply Hall. rewrite elem_of_cons. by right.
    + split; [|by right]. split; [by vm_compute|].
      intros Hall. assert (false = true); [|done].
      apply Hd, Hall. rewrite elem_of_cons. by left.
Qed.

End MetadataDistanceFacts.

(** ** Removing positions in descending order *)

Section Removal.
Context {A : Type}.
Implicit Types (l : list A) (ps : list Z).

Lemma kept_from_app o ps l1 l2 :
  kept_from o ps (l1 ++ l2) =
  kept_from o ps l1 ++ kept_from (o + QList_size l1) ps l2.
Proof.
  revert o. induction l1 as [|x l1 IH]; intros o; simpl.
  - unfold QList_size; simpl. by rewrite Z.add_0_r.
  - rewrite IH. unfold QList_size; simpl length.
    replace (o + 1 + Z.of_nat (length l1)) with (o + Z.of_nat (S (length l1))) by lia.
    by case_bool_decide.
Qed.

Lemma kept_from_ext o ps ps' l :
  (∀ j, o ≤ j < o + QList_size l → j ∈ ps ↔ j ∈ ps') →
  kept_from o ps l = kept_from o ps' l.
Proof.
  revert o. induction l as [|x l IH]; intros o Hext; simpl; [done|].
  unfold QList_size in *; simpl length in *.
  rewrite (IH (o + 1)) by (intros j Hj; apply Hext; lia).
  assert (o ∈ ps ↔ o ∈ ps') as Ho by (apply Hext; lia).
  repeat case_bool_decide; tauto.
Qed.

Lemma kept_from_none o ps l :
  (∀ j, o ≤ j < o + QList_size l → j ∉ ps) → kept_from o ps l = l.
Proof.
  revert o. induction l as [|x l IH]; intros o Hno; simpl; [done|].
  unfold QList_size in *; simpl length in *.
  rewrite (IH (o + 1)) by (intros j Hj; apply Hno; lia).
  case_bool_decide as Ho; [|done]. exfalso. revert Ho. apply Hno. lia.
Qed.

Lemma kept_from_filter (P : A → Prop) `{!∀ x, Decision (P x)} o ps l :
  (∀ k x, l !! k = Some x → (o + Z.of_nat k ∈ ps ↔ ¬ P x)) →
  kept_from o ps l = filter P l.
Proof.
  revert o. induction l as [|x l IH]; intros o Hps; simpl; [done|].
  rewrite (IH (o + 1)).
  2:{ intros k y Hk. rewrite <- (Hps (S k) y Hk). 
      replace (o + 1 + Z.of_nat k) with (o + Z.of_nat (S k)) by lia. done. }
  pose proof (Hps 0%nat x eq_refl) as H0. rewrite Z.add_0_r in H0.
  rewrite filter_cons. case_bool_decide; case_decide; tauto.
Qed.

(** Removing strictly descending positions one after the other removes
    exactly the records at these positions. *)
Lemma foldl_removeAt_descending ps l :
  StronglySorted (λ p q, q < p) ps →
  foldl (λ pd p, QList_removeAt p pd) l ps = kept_from 0 ps l.
Proof.
  intros Hsorted. revert l.
  induction Hsorted as [|p ps Hs IH Hlt]; intros l; simpl.
  - symmetry. apply kept_from_none. intros j _ []%elem_of_nil.
  - rewrite IH. unfold QList_removeAt. rewrite Forall_forall in Hlt.
    case_bool_decide as Hrange.
    + destruct (lookup_lt_is_Some_2 l (Z.to_nat p)) as [x Hx].
      { unfold QList_size in Hrange. lia. }
      rewrite delete_take_drop.
      rewrite <- (take_drop_middle l (Z.to_nat p) x Hx) at 3.
      assert (QList_size (take (Z.to_nat p) l) = p) as Hlen.
      { unfold QList_size in *. rewrite length_take. lia. }
      rewrite !kept_from_app, Hlen. simpl.
      rewrite bool_decide_true by (rewrite elem_of_cons; auto).
      f_equal.
      * apply kept_from_ext. intros j Hj. rewrite elem_of_cons.
        split; [auto|]. intros [->|?]; [lia|done].
      * rewrite !kept_from_none; [done|..].
        -- intros j Hj [->|Hin]%elem_of_cons; [lia|]. apply Hlt in Hin. lia.
        -- intros j Hj Hin. apply Hlt in Hin. lia.
    + apply kept_from_ext. intros j Hj. rewrite elem_of_cons.
      split; [auto|]. intros [->|?]; [|done]. unfold QList_size in *. lia.
Qed.

End Removal.

(** ** [Common::Sort] *)

Lemma Sort_insert_spec (descending : bool) (p : Z * Z) (sorted : list (Z * Z)) :
  StronglySorted (strictly descending) sorted.*1 →
  StronglySorted (strictly descending) (Sort_insert descending p sorted).*1 ∧
  ∀ x, x ∈ (Sort_insert descending p sorted).*1 ↔ x = p.1 ∨ x ∈ sorted.*1.
Proof.
  induction sorted as [|q rest IH]; simpl; intros Hs.
  - split; [repeat constructor|]. intros x. rewrite elem_of_cons, elem_of_nil. tauto.
  - apply StronglySorted_inv in Hs as [Hrest Hq].
    destruct (before descending p.1 q.1) eqn:Hb; simpl.
    + split; [|intros x; rewrite !elem_of_cons; tauto].
      constructor; [by constructor|]. constructor; [done|].
      eapply Forall_impl; [exact Hq|]. intros z Hz. unfold strictly, before in *.
      destruct descending; lia.
    + case_bool_decide as Heq; simpl.
      * split; [by constructor|]. intros x. rewrite !elem_of_cons, Heq. tauto.
      * destruct (IH Hrest) as [IHs IHe]. split.
        -- constructor; [done|]. apply Forall_forall. intros x [->|Hx]%IHe.
           ++ unfold strictly, before in *. destruct descending; lia.
           ++ rewrite Forall_forall in Hq. by apply Hq.
        -- intros x. rewrite !elem_of_cons, IHe. tauto.
Qed.

Lemma imap_numbered_fst (f : nat → Z) (vals : list Z) :
  (imap (λ i v, (v, f i)) vals).*1 = vals.
Proof.
  revert f. induction vals as [|v vals IH]; intros f; simpl; [done|].
  f_equal. apply (IH (f ∘ S)).
Qed.

Lemma Common_Sort_spec (vals : list Z) (descending : bool) :
  StronglySorted (strictly descending) (Common_Sort vals descending).*1 ∧
  ∀ x, x ∈ (Common_Sort vals descending).*1 ↔ x ∈ vals.
Proof.
  unfold Common_Sort.
  assert (∀ (pairs acc : list (Z * Z)),
    StronglySorted (strictly descending) acc.*1 →
    StronglySorted (strictly descending)
      (foldl (λ sorted p, Sort_insert descending p sorted) acc pairs).*1 ∧
    ∀ x, x ∈ (foldl (λ sorted p, Sort_insert descending p sorted) acc pairs).*1
         ↔ x ∈ acc.*1 ∨ x ∈ pairs.*1) as Hgen.
  { induction pairs as [|p pairs IH]; intros acc Hacc; simpl.
    - split; [done|]. intros x. rewrite elem_of_nil. tauto.
    - destruct (Sort_insert_spec descending p acc Hacc) as [Hs He].
      destruct (IH _ Hs) as [IHs IHe]. split; [done|].
      intros x. rewrite IHe, He, elem_of_cons. tauto. }
  destruct (Hgen (imap (λ i v, (v, Z.of_nat i)) vals) []) as [Hs He];
    [constructor|].
  split; [done|]. intros x. rewrite He. simpl. rewrite elem_of_nil.
  assert ((imap (λ (i : nat) (v : Z), (v, Z.of_nat i)) vals).*1 = vals) as ->.
  { apply imap_numbered_fst. }
  tauto.
Qed.

Lemma QList_at_Ok {A} (l : list A) (i : Z) (x : A) :
  QList_at l i = Ok x ↔ 0 ≤ i ∧ l !! Z.to_nat i = Some x.
Proof.
  unfold QList_at, QList_size. case_bool_decide as Hr.
  - destruct (l !! Z.to_nat i) eqn:E; split.
    + intros [= ->]. split; [lia|done].
    + by intros [_ [= ->]].
    + done.
    + by intros [_ ?].
  - split; [done|]. intros [? Hl]. apply lookup_lt_Some in Hl. lia.
Qed.

Lemma QList_at_nat {A} (l : list A) (k : nat) (x : A) :
  l !! k = Some x → QList_at l (Z.of_nat k) = Ok x.
Proof. intros Hl. apply QList_at_Ok. rewrite Nat2Z.id. split; [lia|done]. Qed.

Lemma QList_at_Err {A} (l : list A) (i : Z) :
  ¬ (0 ≤ i < QList_size l) →
  QList_at l i = Err (AssertFailed "index out of range").
Proof. intros Hr. unfold QList_at. by rewrite bool_decide_false. Qed.

Lemma StronglySorted_weaken {A} (R R' : A → A → Prop) (l : list A) :
  (∀ x y, R x y → R' x y) → StronglySorted R l → StronglySorted R' l.
Proof.
  intros HR. induction 1 as [|x l _ IH Hx]; constructor; [done|].
  eapply Forall_impl; [exact Hx|]. intros y. apply HR.
Qed.

Lemma remove_sorted_spec {qreal} (removed : list Z) (data : TemplateList qreal) :
  CrossValidateTransform.remove_sorted removed data = kept_from 0 removed data.
Proof.
  unfold CrossValidateTransform.remove_sorted.
  destruct (Common_Sort_spec removed true) as [Hs He].
  rewrite <- (kept_from_ext 0 (Common_Sort removed true).*1 removed data)
    by (intros j _; apply He).
  rewrite <- foldl_removeAt_descending.
  - by rewrite foldl_fmap.
  - eapply StronglySorted_weaken; [|exact Hs].
    intros x y. unfold strictly, before. lia.
Qed.

(** ** Subject groups *)

Section FindFacts.
Context {qreal : Type}.
Implicit Types (data : TemplateList qreal) (t : Template qreal).

Lemma find_from_elem_of (o : Z) (key value : string) data (p : Z) :
  p ∈ find_from o key value data ↔
  ∃ (k : nat) t, p = o + Z.of_nat k ∧ data !! k = Some t ∧
                 File_matches (file t) key value = true.
Proof.
  revert o. induction data as [|t data IH]; intros o; simpl.
  - rewrite elem_of_nil. split; [done|]. by intros (k & t & _ & ? & _).
  - assert (p ∈ find_from (o + 1) key value data ↔
            ∃ (k : nat) t', p = o + Z.of_nat (S k) ∧ data !! k = Some t' ∧
                            File_matches (file t') key value = true) as IH'.
    { rewrite IH. split; intros (k & t' & -> & ?); exists k, t'; split; auto; lia. }
    destruct (File_matches (file t) key value) eqn:Hm.
    + rewrite elem_of_cons, IH'. split.
      * intros [->|(k & t' & ? & ? & ?)].
        -- exists 0%nat, t. split; [lia|]. done.
        -- by exists (S k), t'.
      * intros ([|k] & t' & -> & Hl & Hm').
        -- left. lia.
        -- right. by exists k, t'.
    + rewrite IH'. split.
      * intros (k & t' & ? & ? & ?). by exists (S k), t'.
      * intros ([|k] & t' & -> & Hl & Hm').
        -- simpl in Hl. injection Hl as <-. congruence.
        -- by exists k, t'.
Qed.

Lemma TemplateList_find_elem_of data (key value : string) (p : Z) :
  p ∈ TemplateList_find data key value ↔
  ∃ t, 0 ≤ p ∧ data !! Z.to_nat p = Some t ∧
       File_matches (file t) key value = true.
Proof.
  unfold TemplateList_find. rewrite find_from_elem_of. split.
  - intros (k & t & -> & Hl & Hm). exists t. rewrite Z.add_0_l, Nat2Z.id.
    split; [lia|done].
  - intros (t & Hp & Hl & Hm). exists (Z.to_nat p), t. split; [lia|done].
Qed.

(** A record that holds a subject is in its own subject group. *)
Lemma find_own_subject data (j : nat) t (subject : string) :
  data !! j = Some t →
  File_get_QString_required (file t) "Subject" = Ok subject →
  Z.of_nat j ∈ TemplateList_find data "Subject" subject.
Proof.
  intros Hl Hs. apply TemplateList_find_elem_of. exists t.
  rewrite Nat2Z.id. split; [lia|]. split; [done|].
  unfold File_get_QString_required in Hs. unfold File_matches.
  destruct (m_metadata (file t) !! "Subject") as [[s| |]|]; try done.
  injection Hs as ->. by apply bool_decide_eq_true.
Qed.

End FindFacts.

(** ** Partition count, growth of the ensemble, the scan *)

Section TrainFacts.
Context {qreal T : Type} `{!Transform qreal T}.
Implicit Types (data : TemplateList qreal) (t : Template qreal).
Implicit Types (self : CrossValidateTransform.t T).

Lemma scan_partitions_snd data :
  (CrossValidateTransform.scan_partitions data).2 =
  (λ t, File_get_int (file t) "Partition" 0) <$> data.
Proof.
  unfold CrossValidateTransform.scan_partitions, files.
  assert (∀ data n ps,
    (foldl (λ '(numPartitions, partitions) f,
              let partition := File_get_int f "Partition" 0 in
              (Z.max numPartitions (wrap32 (partition + 1)),
               partitions ++ [partition]))
           (n, ps) (file <$> data)).2 =
    ps ++ ((λ t, File_get_int (file t) "Partition" 0) <$> data)) as Hgen.
  { clear. induction data as [|t data IH]; intros n ps; simpl.
    - by rewrite app_nil_r.
    - rewrite IH. by rewrite <- app_assoc. }
  apply (Hgen data 0 []).
Qed.

Lemma wrap32_range (n : Z) : - 2 ^ 31 ≤ wrap32 n < 2 ^ 31.
Proof.
  unfold wrap32. pose proof (Z.mod_pos_bound (n + 2 ^ 31) (2 ^ 32)). lia.
Qed.

Lemma wrap32_id (n : Z) : - 2 ^ 31 ≤ n < 2 ^ 31 → wrap32 n = n.
Proof. intros Hn. unfold wrap32. rewrite Z.mod_small; lia. Qed.

Lemma scan_partitions_fst data :
  0 ≤ (CrossValidateTransform.scan_partitions data).1 ∧
  (∀ t, t ∈ data →
        wrap32 (File_get_int (file t) "Partition" 0 + 1) ≤
        (CrossValidateTransform.scan_partitions data).1) ∧
  ((CrossValidateTransform.scan_partitions data).1 = 0 ∨
   ∃ t, t ∈ data ∧
        (CrossValidateTransform.scan_partitions data).1 =
        wrap32 (File_get_int (file t) "Partition" 0 + 1)).
Proof.
  unfold CrossValidateTransform.scan_partitions, files.
  assert (∀ data n ps, ∃ r,
    (foldl (λ '(numPartitions, partitions) f,
              let partition := File_get_int f "Partition" 0 in
              (Z.max numPartitions (wrap32 (partition + 1)),
               partitions ++ [partition]))
           (n, ps) (file <$> data)).1 = r ∧
    n ≤ r ∧
    (∀ t, t ∈ data → wrap32 (File_get_int (file t) "Partition" 0 + 1) ≤ r) ∧
    (r = n ∨
     ∃ t, t ∈ data ∧ r = wrap32 (File_get_int (file t) "Partition" 0 + 1)))
    as Hgen.
  { clear. induction data as [|t data IH]; intros n ps; simpl.
    - exists n. split; [done|]. split; [lia|].
      split; [by intros ? ?%elem_of_nil | by left].
    - destruct (IH (Z.max n (wrap32 (File_get_int (file t) "Partition" 0 + 1)))
                   (ps ++ [File_get_int (file t) "Partition" 0]))
        as (r & Hr & Hle & Hlt & Hmax).
      exists r. split; [done|]. split; [lia|]. split.
      + intros t' [->|Hin]%elem_of_cons; [lia | by apply Hlt].
      + destruct Hmax as [Heq|(t' & Hin & Heq)].
        * destruct (Z.max_spec n
                      (wrap32 (File_get_int (file t) "Partition" 0 + 1)))
            as [[_ Hm]|[_ Hm]]; rewrite Hm in Heq.
          -- right. exists t. split; [apply elem_of_cons; by left | done].
          -- by left.
        * right. exists t'. split; [apply elem_of_cons; by right | done]. }
  destruct (Hgen data 0 []) as (r & <- & H0 & Hlt & Hmax).
  split; [exact H0|]. split; [exact Hlt | exact Hmax].
Qed.

Lemma grow_spec (rounds : nat) (n : Z) (d : string) (ts : list T) :
  n - QList_size ts ≤ Z.of_nat rounds →
  CrossValidateTransform.grow rounds n d ts =
  ts ++ replicate (Z.to_nat (n - QList_size ts)) (Transform_make d).
Proof.
  revert ts. induction rounds as [|rounds IH]; intros ts Hr; simpl.
  - replace (Z.to_nat (n - QList_size ts)) with 0%nat by lia.
    by rewrite app_nil_r.
  - case_bool_decide as Hlt.
    + rewrite IH.
      2:{ unfold QList_size in *. rewrite length_app. simpl. lia. }
      rewrite <- app_assoc. f_equal. 
      assert (QList_size (ts ++ [Transform_make d]) = QList_size ts + 1) as ->.
      { unfold QList_size. rewrite length_app. simpl. lia. }
      replace (Z.to_nat (n - QList_size ts))
        with (S (Z.to_nat (n - (QList_size ts + 1)))) by lia.
      done.
    + replace (Z.to_nat (n - QList_size ts)) with 0%nat by lia.
      by rewrite app_nil_r.
Qed.

Lemma grow_to_spec (n : Z) (d : string) (ts : list T) :
  CrossValidateTransform.grow_to n d ts =
  ts ++ replicate (Z.to_nat (n - QList_size ts)) (Transform_make d).
Proof.
  unfold CrossValidateTransform.grow_to. apply grow_spec.
  unfold QList_size. lia.
Qed.

Lemma grow_to_size (n : Z) (d : string) (ts : list T) :
  QList_size (CrossValidateTransform.grow_to n d ts) = Z.max n (QList_size ts).
Proof.
  rewrite grow_to_spec. unfold QList_size.
  rewrite length_app, length_replicate. lia.
Qed.

(** Without leave-one-out the scan collects the positions of partition
    [i]. *)
Lemma scan_partition_positions (partitions : list Z) data (i : Z) (n : nat)
    (removed : list Z) :
  (n ≤ length partitions)%nat →
  ∃ more,
    CrossValidateTransform.scan false partitions data i n removed =
      Ok (removed ++ more) ∧
    ∀ j, j ∈ more ↔ 0 ≤ j < Z.of_nat n ∧ partitions !! Z.to_nat j = Some i.
Proof.
  revert removed. induction n as [|n IH]; intros removed Hn; simpl.
  - exists []. rewrite app_nil_r. split; [done|]. intros j.
    rewrite elem_of_nil. split; [done | lia].
  - destruct (lookup_lt_is_Some_2 partitions n) as [pj Hpj]; [lia|].
    unfold CrossValidateTransform.scan_body.
    rewrite (QList_at_nat _ _ _ Hpj). simpl.
    destruct (IH (if bool_decide (pj = i) then removed ++ [Z.of_nat n]
                  else removed)) as (more & Hscan & Hmore); [lia|].
    case_bool_decide as Hi; simpl; rewrite Hscan.
    + exists (Z.of_nat n :: more). split; [by rewrite <- app_assoc|].
      intros j. rewrite elem_of_cons, Hmore. split.
      * intros [->|[? ?]]; [|split; [lia|done]].
        rewrite Nat2Z.id. split; [lia|congruence].
      * intros [Hj Hl]. destruct (decide (j = Z.of_nat n)); [by left|].
        right. split; [lia|done].
    + exists more. split; [done|]. intros j. rewrite Hmore. split.
      * intros [? ?]. split; [lia|done].
      * intros [Hj Hl]. split; [|done].
        destruct (decide (j = Z.of_nat n)) as [->|]; [|lia].
        rewrite Nat2Z.id in Hl. congruence.
Qed.

Lemma partition_data_filter data (i : Z) :
  CrossValidateTransform.partition_data false
    (CrossValidateTransform.scan_partitions data).2 data i =
  Ok (filter (λ t, File_get_int (file t) "Partition" 0 ≠ i) data).
Proof.
  unfold CrossValidateTransform.partition_data.
  rewrite scan_partitions_snd.
  destruct (scan_partition_positions
              ((λ t, File_get_int (file t) "Partition" 0) <$> data)
              data i (length data) []) as (more & -> & Hmore).
  { by rewrite length_fmap. }
  simpl. f_equal. rewrite remove_sorted_spec.
  apply kept_from_filter. intros k t Hk. rewrite Z.add_0_l, Hmore.
  rewrite Nat2Z.id, list_lookup_fmap, Hk. simpl.
  apply lookup_lt_Some in Hk as Hlt. split.
  - intros [_ [= <-]]. tauto.
  - intros Hp. split; [lia|]. f_equal.
    destruct (decide (File_get_int (file t) "Partition" 0 = i)); tauto.
Qed.

End TrainFacts.

Lemma run_bind {S A B} (m : method S A) (k : A → method S B) (s : S) :
  run (m ≫= k) s =
  match run m s with
  | (Ok a, s') => run (k a) s'
  | (Err e, s') => (Err e, s')
  end.
Proof. reflexivity. Qed.

(** ** The loop over the partitions *)

Section TrainRuns.
Context {qreal T : Type} `{!Transform qreal T}.
Implicit Types (data : TemplateList qreal) (t : Template qreal).
Implicit Types (self : CrossValidateTransform.t T).

Lemma run_train_partition (partitions : list Z) data (i : Z) self
    (partitionedData : TemplateList qreal) (m : T) :
  CrossValidateTransform.partition_data
    (CrossValidateTransform.leaveOneOut self) partitions data i =
    Ok partitionedData →
  0 ≤ i →
  CrossValidateTransform.transforms self !! Z.to_nat i = Some m →
  run (CrossValidateTransform.train_partition partitions data i) self =
  (Ok (i, partitionedData),
   CrossValidateTransform.set_transforms self
     (<[Z.to_nat i := Transform_train m partitionedData]>
        (CrossValidateTransform.transforms self))).
Proof.
  intros Hpd Hi Hm. unfold CrossValidateTransform.train_partition.
  rewrite run_bind. simpl. rewrite Hpd. simpl.
  assert (QList_at (CrossValidateTransform.transforms self) i = Ok m) as ->.
  { by apply QList_at_Ok. }
  done.
Qed.

Lemma for_each_cons {A} (body : Z → method (CrossValidateTransform.t T) A)
    (i : Z) (rest : list Z) :
  CrossValidateTransform.for_each body (i :: rest) =
  (a ← body i;
   others ← CrossValidateTransform.for_each body rest;
   mret (a :: others)).
Proof. reflexivity. Qed.

(** The loop over the partitions, when every training set can be built
    and every partition has its model. *)
Lemma run_for_each_train_partition (partitions : list Z) data
    (g : Z → TemplateList qreal) (indices : list Z) self :
  (∀ i, i ∈ indices →
        CrossValidateTransform.partition_data
          (CrossValidateTransform.leaveOneOut self) partitions data i =
        Ok (g i)) →
  (∀ i, i ∈ indices →
        0 ≤ i < QList_size (CrossValidateTransform.transforms self)) →
  NoDup indices →
  ∃ self',
    run (CrossValidateTransform.for_each
           (CrossValidateTransform.train_partition partitions data) indices)
        self = (Ok ((λ i, (i, g i)) <$> indices), self') ∧
    CrossValidateTransform.description self' =
      CrossValidateTransform.description self ∧
    CrossValidateTransform.leaveOneOut self' =
      CrossValidateTransform.leaveOneOut self ∧
    length (CrossValidateTransform.transforms self') =
      length (CrossValidateTransform.transforms self) ∧
    (∀ k, Z.of_nat k ∉ indices →
          CrossValidateTransform.transforms self' !! k =
          CrossValidateTransform.transforms self !! k) ∧
    (∀ i m, i ∈ indices →
            CrossValidateTransform.transforms self !! Z.to_nat i = Some m →
            CrossValidateTransform.transforms self' !! Z.to_nat i =
            Some (Transform_train m (g i))).
Proof.
  revert self. induction indices as [|i indices IH]; intros self Hpd Hr Hnd.
  - exists self. simpl. repeat split; try done. by intros ? ? ?%elem_of_nil.
  - apply NoDup_cons in Hnd as [Hi Hnd].
    assert (0 ≤ i < QList_size (CrossValidateTransform.transforms self))
      as Hir by (apply Hr, elem_of_cons; by left).
    destruct (lookup_lt_is_Some_2 (CrossValidateTransform.transforms self)
                (Z.to_nat i)) as [m Hm].
    { unfold QList_size in Hir. lia. }
    pose proof (run_train_partition partitions data i self (g i) m) as Hstep.
    rewrite Hpd in Hstep by (apply elem_of_cons; by left).
    specialize (Hstep eq_refl (proj1 Hir) Hm).
    set (self1 := CrossValidateTransform.set_transforms self _) in Hstep.
    destruct (IH self1) as (self' & Hrun & Hd & Hl & Hlen & Hother & Htrained).
    { intros j Hj. simpl. apply Hpd, elem_of_cons. by right. }
    { intros j Hj. simpl. unfold QList_size. rewrite length_insert.
      apply Hr, elem_of_cons. by right. }
    { done. }
    exists self'. rewrite for_each_cons, run_bind, Hstep, run_bind, Hrun. simpl.
    split; [done|]. split; [done|]. split; [done|].
    split; [by rewrite Hlen; simpl; rewrite length_insert|]. split.
    + intros k Hk. rewrite not_elem_of_cons in Hk. destruct Hk as [Hki Hk].
      rewrite Hother by done. simpl. apply list_lookup_insert_ne. lia.
    + intros j mj [->|Hj]%elem_of_cons Hmj.
      * rewrite <- (Z2Nat.id i) in Hi by lia.
        rewrite (Hother _ Hi). simpl. rewrite Hm in Hmj. injection Hmj as <-.
        apply list_lookup_insert_eq. unfold QList_size in Hir. lia.
      * apply Htrained; [done|]. simpl. rewrite list_lookup_insert_ne; [done|].
        assert (0 ≤ j) by (apply Hr, elem_of_cons; by right).
        intros Heq. apply Hi. replace i with j by lia. done.
Qed.

End TrainRuns.

(** ** [train] and [project] *)

Section TrainTheorems.
Context {qreal T : Type} `{!Transform qreal T}.
Implicit Types (data : TemplateList qreal) (t : Template qreal).
Implicit Types (self : CrossValidateTransform.t T).

(** [train] on fewer than two partitions. *)
Lemma run_train_degenerate data self :
  (CrossValidateTransform.scan_partitions data).1 < 2 →
  run (CrossValidateTransform.train data) self =
  match CrossValidateTransform.grow_to
          (CrossValidateTransform.scan_partitions data).1
          (CrossValidateTransform.description self)
          (CrossValidateTransform.transforms self) with
  | m :: rest =>
      (Ok [(0, data)],
       CrossValidateTransform.set_transforms self
         (Transform_train m data :: rest))
  | [] =>
      (Err (AssertFailed "!isEmpty()"),
       CrossValidateTransform.set_transforms self [])
  end.
Proof.
  intros Hn. unfold CrossValidateTransform.train.
  destruct (CrossValidateTransform.scan_partitions data) as [n ps]. simpl in *.
  rewrite bool_decide_true by done.
  by destruct (CrossValidateTransform.grow_to _ _ _).
Qed.

(** [train] on two partitions or more. *)
Lemma run_train_cross data self :
  2 ≤ (CrossValidateTransform.scan_partitions data).1 →
  run (CrossValidateTransform.train data) self =
  run (CrossValidateTransform.for_each
         (CrossValidateTransform.train_partition
            (CrossValidateTransform.scan_partitions data).2 data)
         (seqZ 0 (CrossValidateTransform.scan_partitions data).1))
      (CrossValidateTransform.set_transforms self
         (CrossValidateTransform.grow_to
            (CrossValidateTransform.scan_partitions data).1
            (CrossValidateTransform.description self)
            (CrossValidateTransform.transforms self))).
Proof.
  intros Hn. unfold CrossValidateTransform.train.
  destruct (CrossValidateTransform.scan_partitions data) as [n ps]. simpl in *.
  rewrite bool_decide_false by lia. done.
Qed.

(** X1: fewer than two partitions, and one partition or a model already
    there: [train] grows the ensemble with factory models up to the number
    of partitions, trains the first model, and only that one, on the whole
    dataset and returns; the ensemble is not empty afterwards. *)
Theorem train_degenerate_with_model data self :
  (CrossValidateTransform.scan_partitions data).1 < 2 →
  (CrossValidateTransform.scan_partitions data).1 = 1 ∨
  CrossValidateTransform.transforms self ≠ [] →
  ∃ m rest,
    CrossValidateTransform.transforms self ++
      replicate (Z.to_nat ((CrossValidateTransform.scan_partitions data).1 -
                           QList_size (CrossValidateTransform.transforms self)))
                (Transform_make (CrossValidateTransform.description self)) =
      m :: rest ∧
    run (CrossValidateTransform.train data) self =
    (Ok [(0, data)],
     CrossValidateTransform.set_transforms self
       (Transform_train m data :: rest)).
Proof.
  intros Hn Hmodel. rewrite run_train_degenerate by done.
  rewrite grow_to_spec.
  destruct (CrossValidateTransform.transforms self) as [|m rest] eqn:Hts.
  - destruct Hmodel as [->|]; [|done]. simpl. eauto.
  - simpl. eauto.
Qed.

(** C1 (what the code does where the claim fails): on a dataset with no
    record, [train] of a transform that holds no model yet constructs
    none, since [numPartitions] is 0, and stops at [transforms.first()]
    of the empty list; no model is trained and the ensemble stays empty. *)
Theorem train_empty_dataset_no_model (d : string) (loo : bool) :
  (CrossValidateTransform.scan_partitions ([] : TemplateList qreal)).1 = 0 ∧
  run (CrossValidateTransform.train ([] : TemplateList qreal))
      (CrossValidateTransform.mk d loo ([] : list T)) =
  (Err (AssertFailed "!isEmpty()"), CrossValidateTransform.mk d loo []).
Proof. split; reflexivity. Qed.

(** C2: without leave-one-out and with [N >= 2] partitions, [train] starts
    one job per partition [i] of [0 .. N-1], in this order, and the data
    given to model [i] is the dataset without exactly the records whose
    "Partition" (0 when absent) is [i]; the model of partition [i] ends
    trained on that data. *)
Theorem train_holds_out_own_partition data self :
  CrossValidateTransform.leaveOneOut self = false →
  2 ≤ (CrossValidateTransform.scan_partitions data).1 →
  ∃ self',
    run (CrossValidateTransform.train data) self =
    (Ok ((λ i, (i, filter (λ t, File_get_int (file t) "Partition" 0 ≠ i) data))
           <$> seqZ 0 (CrossValidateTransform.scan_partitions data).1),
     self') ∧
    ∀ i m,
      0 ≤ i < (CrossValidateTransform.scan_partitions data).1 →
      CrossValidateTransform.grow_to
        (CrossValidateTransform.scan_partitions data).1
        (CrossValidateTransform.description self)
        (CrossValidateTransform.transforms self) !! Z.to_nat i = Some m →
      CrossValidateTransform.transforms self' !! Z.to_nat i =
      Some (Transform_train m
              (filter (λ t, File_get_int (file t) "Partition" 0 ≠ i) data)).
Proof.
  intros Hloo Hn. rewrite run_train_cross by done.
  set (N := (CrossValidateTransform.scan_partitions data).1) in *.
  set (self0 := CrossValidateTransform.set_transforms self _).
  destruct (run_for_each_train_partition
              (CrossValidateTransform.scan_partitions data).2 data
              (λ i, filter (λ t, File_get_int (file t) "Partition" 0 ≠ i) data)
              (seqZ 0 N) self0)
    as (self' & Hrun & _ & _ & _ & _ & Htrained).
  - intros i _. simpl. rewrite Hloo. apply partition_data_filter.
  - intros i Hi%elem_of_seqZ. simpl. rewrite grow_to_size. lia.
  - apply NoDup_seqZ.
  - exists self'. split; [exact Hrun|].
    intros i m Hi Hm. apply Htrained; [|exact Hm].
    apply elem_of_seqZ. lia.
Qed.

(** C6: [project] reads the record's "Partition" (0 when absent) and gives
    the record to the model at that position and to no other: the result
    is that model's projection.  When no model stands at that position
    the call fails.  Either way the object is left as it was. *)
Theorem project_routes_by_partition self (src dst : Template qreal) :
  (run (CrossValidateTransform.project src dst) self).2 = self ∧
  (∀ m, 0 ≤ File_get_int (file src) "Partition" 0 →
        CrossValidateTransform.transforms self
          !! Z.to_nat (File_get_int (file src) "Partition" 0) = Some m →
        (run (CrossValidateTransform.project src dst) self).1 =
        Ok (Transform_project m src dst)) ∧
  (¬ (0 ≤ File_get_int (file src) "Partition" 0
        < QList_size (CrossValidateTransform.transforms self)) →
   (run (CrossValidateTransform.project src dst) self).1 =
   Err (AssertFailed "index out of range")).
Proof.
  unfold CrossValidateTransform.project. rewrite run_bind. simpl.
  split; [|split].
  - by destruct (QList_at _ _).
  - intros m Hp Hm.
    assert (QList_at (CrossValidateTransform.transforms self)
              (File_get_int (file src) "Partition" 0) = Ok m) as ->
      by (by apply QList_at_Ok).
    done.
  - intros Hr. by rewrite QList_at_Err.
Qed.

End TrainTheorems.

(** ** The leave-one-out scan *)

Section LeaveOneOut.
Context {qreal : Type}.
Implicit Types (data : TemplateList qreal) (t : Template qreal).

Lemma has_subject_get t :
  has_subject t →
  File_get_QString_required (file t) "Subject" =
  Ok (File_get_QString (file t) "Subject" "").
Proof.
  unfold has_subject, File_get_QString_required, File_get_QString.
  by destruct (m_metadata (file t) !! "Subject") as [[| |]|].
Qed.

Lemma scan_body_leave_one_out (partitions : list Z) data (i : Z) (j : nat) t
    (removed : list Z) :
  data !! j = Some t → has_subject t →
  ∃ c, CrossValidateTransform.scan_body true partitions data i (Z.of_nat j)
         removed = Ok (removed ++ c) ∧
       leave_one_out_rule i data t c.
Proof.
  intros Hj Hs. unfold CrossValidateTransform.scan_body, leave_one_out_rule.
  rewrite (QList_at_nat _ _ _ Hj). simpl.
  rewrite (has_subject_get t Hs). simpl.
  pose proof (find_own_subject data j t _ Hj (has_subject_get t Hs)) as Hown.
  set (S := TemplateList_find data "Subject" _) in *.
  assert (0 < QList_size S) as Hpos.
  { destruct S; [by apply elem_of_nil in Hown|]. unfold QList_size. simpl. lia. }
  case_bool_decide as Hlt.
  - rewrite bool_decide_false by lia.
    assert (0 ≤ Z.rem i (QList_size S) < QList_size S) as Hrem
      by (apply Z.rem_bound_pos; lia).
    rewrite <- Z.rem_mod_nonneg by lia.
    destruct (lookup_lt_is_Some_2 S (Z.to_nat (Z.rem i (QList_size S))))
      as [p Hp]; [unfold QList_size in *; lia|].
    assert (QList_at S (Z.rem i (QList_size S)) = Ok p) as ->
      by (apply QList_at_Ok; split; [lia|done]).
    exists [p]. simpl. split; [done|]. split; [eauto | lia].
  - exists []. simpl. rewrite app_nil_r. split; [done|]. split; [lia|done].
Qed.

Lemma scan_leave_one_out (partitions : list Z) data (i : Z) (n : nat)
    (removed : list Z) :
  Forall has_subject data → (n ≤ length data)%nat →
  ∃ cs, CrossValidateTransform.scan true partitions data i n removed =
          Ok (removed ++ concat cs) ∧
        Forall2 (leave_one_out_rule i data) (reverse (take n data)) cs.
Proof.
  intros Hall. revert removed. induction n as [|n IH]; intros removed Hn.
  - exists []. simpl. rewrite app_nil_r. split; [done|]. rewrite take_0. constructor.
  - destruct (lookup_lt_is_Some_2 data n) as [t Ht]; [lia|].
    assert (has_subject t) as Hs.
    { rewrite Forall_forall in Hall. eapply Hall, list_elem_of_lookup_2, Ht. }
    destruct (scan_body_leave_one_out partitions data i n t removed Ht Hs)
      as (c & Hbody & Hrule).
    destruct (IH (removed ++ c)) as (cs & Hscan & Hrules); [lia|].
    exists (c :: cs). cbn [CrossValidateTransform.scan concat].
    rewrite Hbody. cbn [mbind result_bind]. rewrite Hscan.
    split; [by rewrite <- app_assoc|].
    rewrite (take_S_r _ _ _ Ht), reverse_app. simpl. by constructor.
Qed.

End LeaveOneOut.

(** ** Leave-one-out training *)

Section LeaveOneOutTheorems.
Context {qreal T : Type} `{!Transform qreal T}.
Implicit Types (data : TemplateList qreal) (t : Template qreal).
Implicit Types (self : CrossValidateTransform.t T).

(** C3: in leave-one-out mode the scan for partition [i] visits every
    record of the unmodified working copy once, from the last to the
    first; with [S] the positions, in order, of the records that share
    the record's "Subject", the record adds a position to the exclusion
    list if and only if [i > |S|], and the position is [S[i mod |S|]]. *)
Theorem leave_one_out_scan_rule (partitions : list Z) data (i : Z) :
  Forall has_subject data →
  ∃ cs,
    CrossValidateTransform.scan true partitions data i (length data) [] =
      Ok (concat cs) ∧
    Forall2 (leave_one_out_rule i data) (reverse data) cs.
Proof.
  intros Hall.
  destruct (scan_leave_one_out partitions data i (length data) [] Hall)
    as (cs & Hscan & Hrules); [done|].
  exists cs. split; [exact Hscan|]. by rewrite firstn_all in Hrules.
Qed.

Lemma leave_one_out_nothing_excluded (partitions : list Z) data (i : Z) :
  Forall has_subject data →
  (∀ t, t ∈ data →
        i ≤ QList_size (TemplateList_find data "Subject"
                          (File_get_QString (file t) "Subject" ""))) →
  CrossValidateTransform.scan true partitions data i (length data) [] = Ok [] ∧
  CrossValidateTransform.partition_data true partitions data i = Ok data.
Proof.
  intros Hall Hi.
  destruct (scan_leave_one_out partitions data i (length data) [] Hall)
    as (cs & Hscan & Hrules); [done|].
  rewrite firstn_all in Hrules. simpl in Hscan.
  assert (concat cs = []) as Hnil.
  { assert (∀ ts, (∀ t, t ∈ ts → t ∈ data) →
                  Forall2 (leave_one_out_rule i data) ts cs → concat cs = [])
      as Hgen.
    { clear Hscan Hrules. induction cs as [|c cs IH]; intros ts Hts Hf; [done|].
      destruct ts as [|t ts]; [by apply Forall2_nil_cons_inv in Hf|].
      apply Forall2_cons in Hf as [[_ Hc] Hf]. simpl.
      rewrite Hc by (apply Hi, Hts, elem_of_cons; by left). simpl.
      apply (IH ts); [|done]. intros t' Ht'. apply Hts, elem_of_cons. by right. }
    apply (Hgen (reverse data)); [|done]. intros t. by rewrite elem_of_reverse. }
  unfold CrossValidateTransform.partition_data.
  rewrite Hscan, Hnil. split; [done|]. reflexivity.
Qed.

Lemma own_subject_group_not_empty data t :
  Forall has_subject data → t ∈ data →
  1 ≤ QList_size (TemplateList_find data "Subject"
                    (File_get_QString (file t) "Subject" "")).
Proof.
  intros Hall Ht. rewrite Forall_forall in Hall.
  apply list_elem_of_lookup_1 in Ht as Hl. destruct Hl as [j Hj].
  pose proof (find_own_subject data j t _ Hj (has_subject_get t (Hall t Ht)))
    as Hown.
  destruct (TemplateList_find _ _ _); [by apply elem_of_nil in Hown|].
  unfold QList_size. simpl. lia.
Qed.

Lemma partition_data_leave_one_out_Ok (partitions : list Z) data (i : Z) :
  Forall has_subject data →
  ∃ partitionedData,
    CrossValidateTransform.partition_data true partitions data i =
    Ok partitionedData.
Proof.
  intros Hall.
  destruct (scan_leave_one_out partitions data i (length data) [] Hall)
    as (cs & Hscan & _); [done|].
  unfold CrossValidateTransform.partition_data. rewrite Hscan. simpl. eauto.
Qed.

(** C9: in leave-one-out mode, on records that all hold a subject and
    with two partitions or more, [train] starts its jobs, and for every
    partition [i] that is at most the size of every record's subject
    group the exclusion list is empty, the job of [i] is given the whole
    dataset and model [i] ends trained on it.  Partitions 0 and 1 are
    always among these, since a record is in its own subject group. *)
Theorem leave_one_out_small_partitions_train_on_all data self :
  CrossValidateTransform.leaveOneOut self = true →
  Forall has_subject data →
  2 ≤ (CrossValidateTransform.scan_partitions data).1 →
  ∃ jobs self',
    run (CrossValidateTransform.train data) self = (Ok jobs, self') ∧
    (∀ i, 0 ≤ i < (CrossValidateTransform.scan_partitions data).1 →
          (∀ t, t ∈ data →
                i ≤ QList_size (TemplateList_find data "Subject"
                                  (File_get_QString (file t) "Subject" ""))) →
          CrossValidateTransform.scan true
            (CrossValidateTransform.scan_partitions data).2 data i
            (length data) [] = Ok [] ∧
          jobs !! Z.to_nat i = Some (i, data) ∧
          ∀ m, CrossValidateTransform.grow_to
                 (CrossValidateTransform.scan_partitions data).1
                 (CrossValidateTransform.description self)
                 (CrossValidateTransform.transforms self) !! Z.to_nat i
               = Some m →
               CrossValidateTransform.transforms self' !! Z.to_nat i =
               Some (Transform_train m data)) ∧
    jobs !! 0%nat = Some (0, data) ∧
    jobs !! 1%nat = Some (1, data).
Proof.
  intros Hloo Hall Hn. rewrite run_train_cross by done.
  set (N := (CrossValidateTransform.scan_partitions data).1) in *.
  set (ps := (CrossValidateTransform.scan_partitions data).2).
  set (self0 := CrossValidateTransform.set_transforms self _).
  set (g := λ i, match CrossValidateTransform.partition_data true ps data i with
                 | Ok partitionedData => partitionedData
                 | Err _ => []
                 end).
  destruct (run_for_each_train_partition ps data g (seqZ 0 N) self0)
    as (self' & Hrun & _ & _ & _ & _ & Htrained).
  { intros i _. simpl. rewrite Hloo. unfold g.
    by destruct (partition_data_leave_one_out_Ok ps data i Hall) as [pd ->]. }
  { intros i Hi%elem_of_seqZ. simpl. rewrite grow_to_size. lia. }
  { apply NoDup_seqZ. }
  assert (∀ i, 0 ≤ i < N →
    (∀ t, t ∈ data →
          i ≤ QList_size (TemplateList_find data "Subject"
                            (File_get_QString (file t) "Subject" ""))) →
    CrossValidateTransform.scan true ps data i (length data) [] = Ok [] ∧
    ((λ i, (i, g i)) <$> seqZ 0 N) !! Z.to_nat i = Some (i, data) ∧
    ∀ m, CrossValidateTransform.transforms self0 !! Z.to_nat i = Some m →
         CrossValidateTransform.transforms self' !! Z.to_nat i =
         Some (Transform_train m data)) as Hsmall.
  { intros i Hi Hgroups.
    destruct (leave_one_out_nothing_excluded ps data i Hall Hgroups)
      as [Hscan Hpd].
    assert (g i = data) as Hg by (unfold g; by rewrite Hpd).
    split; [done|]. split.
    - rewrite list_lookup_fmap, lookup_seqZ_lt by lia. simpl.
      rewrite Z2Nat.id, Z.add_0_l, Hg by lia. done.
    - intros m Hm. rewrite <- Hg. apply Htrained; [|done].
      apply elem_of_seqZ. lia. }
  exists ((λ i, (i, g i)) <$> seqZ 0 N), self'.
  split; [exact Hrun|]. split; [exact Hsmall|]. split.
  - apply (Hsmall 0); [lia|]. intros t Ht.
    pose proof (own_subject_group_not_empty data t Hall Ht). lia.
  - apply (Hsmall 1); [lia|]. intros t Ht.
    by apply own_subject_group_not_empty.
Qed.

End LeaveOneOutTheorems.

Lemma kept_from_numbered {A} (o : Z) (ps : list Z) (l : list A) :
  kept_from o ps l =
  (filter (λ jx, jx.1 ∉ ps) (imap (λ j x, (o + Z.of_nat j, x)) l)).*2.
Proof.
  revert o. induction l as [|x l IH]; intros o; [done|].
  cbn [kept_from imap]. rewrite filter_cons. simpl.
  rewrite Z.add_0_r, (IH (o + 1)).
  assert (imap (λ j y, (o + 1 + Z.of_nat j, y)) l =
          imap ((λ j y, (o + Z.of_nat j, y)) ∘ S) l) as ->.
  { apply imap_ext. intros j y _. simpl. f_equal. lia. }
  case_bool_decide; case_decide; try tauto; done.
Qed.

(** C4: [train] removes the excluded positions as [Common::Sort] returns
    them, in strictly descending order and each once; whatever the
    exclusion list, with repeated or out-of-range positions, the removal
    is defined and leaves exactly the records, in their order, whose
    position is not in the list, so a position listed twice removes the
    record at that position and no other. *)
Theorem removal_is_sorted_descending_and_deduplicated {qreal}
    (removed : list Z) (data : TemplateList qreal) :
  StronglySorted (λ p q, q < p) (Common_Sort removed true).*1 ∧
  (∀ p, p ∈ (Common_Sort removed true).*1 ↔ p ∈ removed) ∧
  CrossValidateTransform.remove_sorted removed data =
    (filter (λ jt, jt.1 ∉ removed) (imap (λ j t, (Z.of_nat j, t)) data)).*2 ∧
  (∀ p, p ∈ removed →
        CrossValidateTransform.remove_sorted (p :: removed) data =
        CrossValidateTransform.remove_sorted removed data).
Proof.
  destruct (Common_Sort_spec removed true) as [Hs He].
  split; [|split; [exact He|split]].
  - eapply StronglySorted_weaken; [|exact Hs].
    intros x y. unfold strictly, before. lia.
  - rewrite remove_sorted_spec, kept_from_numbered. done.
  - intros p Hp. rewrite !remove_sorted_spec. apply kept_from_ext.
    intros j _. rewrite elem_of_cons. split; [|auto].
    intros [->|?]; done.
Qed.

(** ** Sizes on a stream *)

Lemma testbit_255 (k : Z) : 0 ≤ k → Z.testbit 255 k = bool_decide (k < 8).
Proof.
  intros Hk. change 255 with (Z.ones 8).
  case_bool_decide.
  - apply Z.ones_spec_low. lia.
  - apply Z.ones_spec_high. lia.
Qed.

Lemma small_testbit_high (n k : Z) :
  0 ≤ n < 2 ^ 31 → 31 ≤ k → Z.testbit n k = false.
Proof.
  intros Hn Hk. destruct (decide (n = 0)) as [->|]; [apply Z.bits_0|].
  apply Z.bits_above_log2; [lia|].
  assert (Z.log2 n < 31); [|lia]. apply Z.log2_lt_pow2; lia.
Qed.

(** A size written to a stream is read back. *)
Lemma read_write_int32 (n : Z) (rest : QDataStream) :
  0 ≤ n < 2 ^ 31 →
  read_int32 (write_int32 n [] ++ rest) = (n, rest).
Proof.
  intros Hn. unfold write_int32, read_int32. cbn [app].
  set (u := Z.lor _ _).
  assert (u = n) as ->.
  { apply Z.bits_inj'. intros k Hk. unfold u.
    rewrite !Z.lor_spec, !Z.shiftl_spec by lia.
    destruct (decide (k < 8)); [|destruct (decide (k < 16));
      [|destruct (decide (k < 24)); [|destruct (decide (k < 32))]]].
    - rewrite (Z.testbit_neg_r _ (k - 24)), (Z.testbit_neg_r _ (k - 16)),
        (Z.testbit_neg_r _ (k - 8)) by lia.
      rewrite Z.land_spec, testbit_255, bool_decide_true by lia.
      simpl. by rewrite andb_true_r.
    - rewrite (Z.testbit_neg_r _ (k - 24)), (Z.testbit_neg_r _ (k - 16)) by lia.
      rewrite !Z.land_spec, Z.shiftr_spec, !testbit_255 by lia.
      rewrite (bool_decide_true (k - 8 < 8)), (bool_decide_false (k < 8)) by lia.
      simpl. rewrite andb_true_r, andb_false_r, orb_false_r.
      f_equal. lia.
    - rewrite (Z.testbit_neg_r _ (k - 24)) by lia.
      rewrite !Z.land_spec, !Z.shiftr_spec, !testbit_255 by lia.
      rewrite (bool_decide_true (k - 16 < 8)), (bool_decide_false (k - 8 < 8)),
        (bool_decide_false (k < 8)) by lia.
      simpl. rewrite andb_true_r, !andb_false_r, orb_false_r.
      f_equal. lia.
    - rewrite !Z.land_spec, !Z.shiftr_spec, !testbit_255 by lia.
      rewrite (bool_decide_true (k - 24 < 8)), (bool_decide_false (k - 16 < 8)),
        (bool_decide_false (k - 8 < 8)), (bool_decide_false (k < 8)) by lia.
      simpl. rewrite andb_true_r, !andb_false_r, !orb_false_r.
      f_equal. lia.
    - rewrite !Z.land_spec, !testbit_255 by lia.
      rewrite (bool_decide_false (k - 24 < 8)), (bool_decide_false (k - 16 < 8)),
        (bool_decide_false (k - 8 < 8)), (bool_decide_false (k < 8)) by lia.
      rewrite !andb_false_r. simpl. symmetry.
      apply small_testbit_high; lia. }
  unfold int32_of_bits. rewrite small_testbit_high by lia. done.
Qed.

(** ** [store] and [load] *)

Section StoreLoad.
Context {qreal T : Type} `{!Transform qreal T}.
Implicit Types (self e : CrossValidateTransform.t T) (ts rs : list T).

Lemma foldl_store (out : QDataStream) ts :
  foldl (λ out transform, out ++ Transform_store transform) out ts =
  out ++ concat (Transform_store <$> ts).
Proof.
  revert out. induction ts as [|m ts IH]; intros out; simpl.
  - by rewrite app_nil_r.
  - by rewrite IH, app_assoc.
Qed.

Lemma run_store (stream : QDataStream) e :
  run (CrossValidateTransform.store stream) e =
  (Ok (write_int32 (QList_size (CrossValidateTransform.transforms e)) stream
       ++ concat (Transform_store <$> CrossValidateTransform.transforms e)),
   e).
Proof.
  unfold CrossValidateTransform.store. rewrite run_bind. simpl.
  by rewrite foldl_store.
Qed.

Lemma load_each_stored rs ts (rest : QDataStream) :
  store_load_contract qreal T →
  length rs = length ts →
  ∃ ts', CrossValidateTransform.load_each rs
           (concat (Transform_store <$> ts) ++ rest) = (ts', rest) ∧
         Forall2 behaves_as ts' ts.
Proof.
  intros Hc. revert ts. induction rs as [|r rs IH]; intros [|m ts] Hlen;
    simpl in Hlen; try lia.
  - exists []. split; [done|constructor].
  - rewrite fmap_cons. cbn [concat CrossValidateTransform.load_each].
    rewrite <- app_assoc.
    destruct (Hc r m (concat (Transform_store <$> ts) ++ rest))
      as (m' & -> & Hm').
    destruct (IH ts) as (ts' & -> & Hts'); [lia|].
    exists (m' :: ts'). split; [done|]. by constructor.
Qed.

Lemma run_load (stream : QDataStream) self :
  run (CrossValidateTransform.load stream) self =
  (Ok (CrossValidateTransform.load_each
         (CrossValidateTransform.grow_to (read_int32 stream).1
            (CrossValidateTransform.description self)
            (CrossValidateTransform.transforms self))
         (read_int32 stream).2).2,
   CrossValidateTransform.set_transforms self
     (CrossValidateTransform.load_each
        (CrossValidateTransform.grow_to (read_int32 stream).1
           (CrossValidateTransform.description self)
           (CrossValidateTransform.transforms self))
        (read_int32 stream).2).1).
Proof.
  unfold CrossValidateTransform.load. rewrite run_bind. simpl.
  destruct (read_int32 stream) as [n s']. simpl.
  by destruct (CrossValidateTransform.load_each _ _).
Qed.

Lemma project_alike self e (src dst : Template qreal) :
  Forall2 behaves_as (CrossValidateTransform.transforms self)
                     (CrossValidateTransform.transforms e) →
  (run (CrossValidateTransform.project src dst) self).1 =
  (run (CrossValidateTransform.project src dst) e).1.
Proof.
  intros Hf. unfold CrossValidateTransform.project. rewrite !run_bind. simpl.
  unfold QList_at, QList_size. rewrite (Forall2_length _ _ _ Hf).
  case_bool_decide as Hr; [|done].
  destruct (CrossValidateTransform.transforms self !! _) as [m'|] eqn:Hm'.
  - destruct (Forall2_lookup_l _ _ _ _ _ Hf Hm') as (m & -> & Hb). simpl.
    f_equal. apply Hb.
  - apply lookup_ge_None in Hm'. rewrite (Forall2_length _ _ _ Hf) in Hm'. lia.
Qed.

(** C5, as amended: [store] writes the number of models and then every
    model's bytes
    in the order of the partitions.  Provided the model abstraction keeps
    its contract, [load] of these bytes into a transform that holds no
    more models than were stored (a new one holds none) reads the whole
    stream, first grows the ensemble with models of the factory to the
    stored number and then lets every model load itself; the ensemble it
    leaves has the stored length, its models behave as the stored ones,
    and [project] gives for every record what it gave before. *)
Theorem store_then_load_reproduces_ensemble e self :
  store_load_contract qreal T →
  QList_size (CrossValidateTransform.transforms e) < 2 ^ 31 →
  (length (CrossValidateTransform.transforms self) ≤
   length (CrossValidateTransform.transforms e))%nat →
  ∃ out self',
    run (CrossValidateTransform.store []) e = (Ok out, e) ∧
    out = write_int32 (QList_size (CrossValidateTransform.transforms e)) []
          ++ concat (Transform_store <$> CrossValidateTransform.transforms e) ∧
    run (CrossValidateTransform.load out) self = (Ok [], self') ∧
    CrossValidateTransform.transforms self' =
      (CrossValidateTransform.load_each
         (CrossValidateTransform.transforms self ++
          replicate (length (CrossValidateTransform.transforms e) -
                     length (CrossValidateTransform.transforms self))%nat
                    (Transform_make (CrossValidateTransform.description self)))
         (concat (Transform_store <$> CrossValidateTransform.transforms e))).1 ∧
    length (CrossValidateTransform.transforms self') =
      length (CrossValidateTransform.transforms e) ∧
    Forall2 behaves_as (CrossValidateTransform.transforms self')
                       (CrossValidateTransform.transforms e) ∧
    ∀ src dst,
      (run (CrossValidateTransform.project src dst) self').1 =
      (run (CrossValidateTransform.project src dst) e).1.
Proof.
  intros Hc Hsize Hlen.
  set (ts := CrossValidateTransform.transforms e) in *.
  set (rs := CrossValidateTransform.transforms self ++
             replicate (length ts -
                        length (CrossValidateTransform.transforms self))%nat
               (Transform_make (CrossValidateTransform.description self))).
  assert (CrossValidateTransform.grow_to (QList_size ts)
            (CrossValidateTransform.description self)
            (CrossValidateTransform.transforms self) = rs) as Hgrow.
  { rewrite grow_to_spec. unfold rs, QList_size. f_equal. f_equal.
    rewrite <- Nat2Z.inj_sub by exact Hlen. apply Nat2Z.id. }
  destruct (load_each_stored rs ts [] Hc) as (ts' & Hload & Hts').
  { unfold rs. rewrite length_app, length_replicate. lia. }
  rewrite app_nil_r in Hload. subst rs ts.
  eexists _, _. split; [apply run_store|]. split; [reflexivity|].
  rewrite run_load, read_write_int32
    by (split; [unfold QList_size; lia | exact Hsize]).
  cbn [fst snd]. rewrite Hgrow, Hload. cbn [fst snd].
  split; [reflexivity|]. split; [reflexivity|].
  split; [apply (Forall2_length _ _ _ Hts')|]. split; [exact Hts'|].
  intros src dst. by apply project_alike.
Qed.

End StoreLoad.

(** ** The allowlist comparator *)

Section FilterDistanceTheorems.
Context {qreal : Type}.
Variable filters : gmap string (list string).
Implicit Types (a b : Template qreal).

Lemma filter_keys_elem_of (key : string) :
  key ∈ (map_to_list filters).*1 ↔ is_Some (filters !! key).
Proof.
  rewrite list_elem_of_fmap. split.
  - intros ([k allowed] & -> & Hin%elem_of_map_to_list). by exists allowed.
  - intros [allowed Hl]. exists (key, allowed).
    split; [done | by apply elem_of_map_to_list].
Qed.

Lemma compare_keys_same_values (keys : list string) a a' :
  (∀ key, key ∈ keys →
          File_get_QString (file a) key "" = File_get_QString (file a') key "") →
  FilterDistance.compare_keys filters keys a =
  FilterDistance.compare_keys filters keys a'.
Proof.
  induction keys as [|key rest IH]; intros Hsame; simpl; [done|].
  rewrite <- (Hsame key) by (apply elem_of_cons; by left).
  rewrite IH by (intros k Hk; apply Hsame, elem_of_cons; by right).
  done.
Qed.

(** C7: the allowlist comparator returns the negative sentinel if and
    only if some key of the filter table with a non-empty list of allowed
    values has the first record's value empty (so also when the record
    has none) or outside the list; keys with an empty list impose
    nothing; otherwise it returns 0. *)
Theorem allowlist_rejects_iff a b :
  (FilterDistance.compare filters a b = - FLT_MAX ↔
   ∃ key allowed,
     filters !! key = Some allowed ∧ allowed ≠ [] ∧
     (File_get_QString (file a) key "" = "" ∨
      File_get_QString (file a) key "" ∉ allowed)) ∧
  (FilterDistance.compare filters a b = - FLT_MAX ∨
   FilterDistance.compare filters a b = 0) ∧
  - FLT_MAX < 0.
Proof.
  unfold FilterDistance.compare. split; [|split].
  - rewrite filter_compare_keys_rejects. split.
    + intros (key & allowed & _ & ?). by exists key, allowed.
    + intros (key & allowed & Hl & ?). exists key, allowed.
      split; [|done]. apply filter_keys_elem_of. by exists allowed.
  - destruct (filter_compare_keys_cases filters (map_to_list filters).*1 a); auto.
  - pose proof FLT_MAX_pos. lia.
Qed.

(** C10: the allowlist comparator does not look at its second argument,
    and two first records with the same values under the keys of the
    filter table get the same result. *)
Theorem allowlist_ignores_query a b b' :
  FilterDistance.compare filters a b = FilterDistance.compare filters a b' ∧
  ∀ a', (∀ key, is_Some (filters !! key) →
                File_get_QString (file a) key "" =
                File_get_QString (file a') key "") →
        FilterDistance.compare filters a b =
        FilterDistance.compare filters a' b'.
Proof.
  split; [reflexivity|]. intros a' Hsame. unfold FilterDistance.compare.
  apply compare_keys_same_values. intros key Hkey.
  by apply Hsame, filter_keys_elem_of.
Qed.

End FilterDistanceTheorems.

(** The scenarios of the allowlist: with the table [{"Gender": ["M"]}] a
    record with "Gender" "F" is rejected, one without "Gender" is
    rejected, one with "Gender" "M" is accepted; an empty table accepts. *)
Example allowlist_gender_scenarios :
  FilterDistance.compare Sample.gender_filter Sample.female Sample.male
    = - FLT_MAX ∧
  FilterDistance.compare Sample.gender_filter Sample.unknown Sample.male
    = - FLT_MAX ∧
  FilterDistance.compare Sample.gender_filter Sample.male Sample.female = 0 ∧
  FilterDistance.compare ∅ Sample.female Sample.male = 0.
Proof. by vm_compute. Qed.

(** ** The theorems on the sample records *)

Lemma sample_dataset_has_subjects : Forall has_subject Sample.dataset.
Proof. repeat constructor. Qed.

Lemma sample_model_contract : store_load_contract Z Z.
Proof.
  intros m0 m rest. exists (Z.land m 255). split; [reflexivity|].
  intros src dst. simpl. unfold Sample.model_project.
  by rewrite <- Z.land_assoc, Z.land_diag.
Qed.

(** Four partitions without leave-one-out: every job misses its own
    record. *)
Lemma train_holds_out_own_partition_witness :
  CrossValidateTransform.leaveOneOut (Sample.fresh false) = false ∧
  2 ≤ (CrossValidateTransform.scan_partitions Sample.dataset).1 ∧
  ∃ self',
    run (CrossValidateTransform.train Sample.dataset) (Sample.fresh false) =
    (Ok [(0, [Sample.r1; Sample.r2; Sample.r3]);
         (1, [Sample.r0; Sample.r2; Sample.r3]);
         (2, [Sample.r0; Sample.r1; Sample.r3]);
         (3, [Sample.r0; Sample.r1; Sample.r2])], self').
Proof.
  split; [reflexivity|]. split; [by vm_compute|].
  destruct (train_holds_out_own_partition Sample.dataset (Sample.fresh false))
    as (self' & Hrun & _); [reflexivity | by vm_compute |].
  exists self'. exact Hrun.
Defined.

(** One record without "Partition": one partition, one model made by the
    factory and trained on the record. *)
Lemma train_degenerate_with_model_witness :
  (CrossValidateTransform.scan_partitions [Sample.male]).1 < 2 ∧
  ((CrossValidateTransform.scan_partitions [Sample.male]).1 = 1 ∨
   CrossValidateTransform.transforms (Sample.fresh false) ≠ []) ∧
  run (CrossValidateTransform.train [Sample.male]) (Sample.fresh false) =
  (Ok [(0, [Sample.male])],
   CrossValidateTransform.mk "Identity" false
     [Transform_train (Transform_make "Identity") [Sample.male]]).
Proof.
  split; [by vm_compute|]. split; [by left|].
  destruct (train_degenerate_with_model [Sample.male] (Sample.fresh false))
    as (m & rest & Hgrown & Hrun); [by vm_compute | by left |].
  injection Hgrown as <- <-. exact Hrun.
Defined.

(** The scan of partition 3 over the four records. *)
Lemma leave_one_out_scan_rule_witness :
  Forall has_subject Sample.dataset ∧
  ∃ cs,
    CrossValidateTransform.scan true [] Sample.dataset 3
      (length Sample.dataset) [] = Ok (concat cs) ∧
    Forall2 (leave_one_out_rule 3 Sample.dataset) (reverse Sample.dataset) cs.
Proof.
  split; [exact sample_dataset_has_subjects|].
  exact (leave_one_out_scan_rule [] Sample.dataset 3
           sample_dataset_has_subjects).
Defined.

(** Subject groups of two records: partition 3 excludes the second record
    of each group, twice over. *)
Example leave_one_out_scan_sample :
  CrossValidateTransform.scan true [] Sample.dataset 3
    (length Sample.dataset) [] = Ok [3; 3; 1; 1] ∧
  CrossValidateTransform.partition_data true [] Sample.dataset 3 =
    Ok [Sample.r0; Sample.r2].
Proof. by vm_compute. Qed.

Lemma leave_one_out_small_partitions_train_on_all_witness :
  CrossValidateTransform.leaveOneOut (Sample.fresh true) = true ∧
  Forall has_subject Sample.dataset ∧
  2 ≤ (CrossValidateTransform.scan_partitions Sample.dataset).1 ∧
  ∃ jobs self',
    run (CrossValidateTransform.train Sample.dataset) (Sample.fresh true) =
      (Ok jobs, self') ∧
    jobs !! 0%nat = Some (0, Sample.dataset) ∧
    jobs !! 1%nat = Some (1, Sample.dataset).
Proof.
  split; [reflexivity|]. split; [exact sample_dataset_has_subjects|].
  split; [by vm_compute|].
  destruct (leave_one_out_small_partitions_train_on_all Sample.dataset
              (Sample.fresh true))
    as (jobs & self' & Hrun & _ & H0 & H1);
    [reflexivity | exact sample_dataset_has_subjects | by vm_compute |].
  by exists jobs, self'.
Defined.

Lemma store_then_load_reproduces_ensemble_witness :
  store_load_contract Z Z ∧
  QList_size (CrossValidateTransform.transforms Sample.trained) < 2 ^ 31 ∧
  (length (CrossValidateTransform.transforms (Sample.fresh false)) ≤
   length (CrossValidateTransform.transforms Sample.trained))%nat ∧
  ∃ out self',
    run (CrossValidateTransform.store []) Sample.trained
      = (Ok out, Sample.trained) ∧
    out = [0; 0; 0; 3; 44; 2; 5] ∧
    run (CrossValidateTransform.load out) (Sample.fresh false)
      = (Ok [], self') ∧
    length (CrossValidateTransform.transforms self') = 3%nat ∧
    ∀ src dst,
      (run (CrossValidateTransform.project src dst) self').1 =
      (run (CrossValidateTransform.project src dst) Sample.trained).1.
Proof.
  split; [exact sample_model_contract|]. split; [by vm_compute|].
  split; [simpl; lia|].
  destruct (store_then_load_reproduces_ensemble Sample.trained
              (Sample.fresh false) sample_model_contract)
    as (out & self' & Hstore & Hout & Hload & _ & Hlen & _ & Hproject);
    [by vm_compute | simpl; lia |].
  exists out, self'. split; [exact Hstore|]. split; [exact Hout|].
  split; [exact Hload|]. split; [exact Hlen | exact Hproject].
Defined.

(** ** The partition comparator *)

Section CrossValidateDistanceTheorems.
Context {qreal : Type}.
Implicit Types (a b c : Template qreal).

(** X2: [CrossValidateDistance::compare] returns the negative sentinel
    exactly when the two records' "Partition" (0 when absent) differ and
    0 exactly when they are the same; accepting is reflexive, symmetric
    in its two arguments and transitive. *)
Theorem partition_gate_equivalence a b c :
  (CrossValidateDistance.compare a b = - FLT_MAX ↔
   File_get_int (file a) "Partition" 0 ≠ File_get_int (file b) "Partition" 0) ∧
  (CrossValidateDistance.compare a b = 0 ↔
   File_get_int (file a) "Partition" 0 = File_get_int (file b) "Partition" 0) ∧
  CrossValidateDistance.compare a a = 0 ∧
  CrossValidateDistance.compare a b = CrossValidateDistance.compare b a ∧
  (CrossValidateDistance.compare a b = 0 →
   CrossValidateDistance.compare b c = 0 →
   CrossValidateDistance.compare a c = 0).
Proof.
  pose proof FLT_MAX_pos as Hpos.
  unfold CrossValidateDistance.compare. simpl.
  repeat split; repeat case_bool_decide; try done; try lia; try congruence.
Qed.

End CrossValidateDistanceTheorems.

Section MoreTrainFacts.
Context {qreal T : Type} `{!Transform qreal T}.
Implicit Types (data : TemplateList qreal) (t : Template qreal).
Implicit Types (self : CrossValidateTransform.t T).

(** X7: the first loop of [train] lists every record's "Partition" (0
    when absent) in order.  On records whose partitions are [int] values,
    [numPartitions] is an [int] that is not negative; it exceeds the
    partition of every record whose partition is below the largest [int];
    it is 0 exactly when every partition is negative or the largest
    [int], where [partitions.last()+1] wraps (so also on the empty
    dataset); and when it is positive it is one more than some record's
    partition. *)
Theorem numPartitions_one_past_largest data :
  (∀ t, t ∈ data →
        - 2 ^ 31 ≤ File_get_int (file t) "Partition" 0 < 2 ^ 31) →
  (CrossValidateTransform.scan_partitions data).2 =
    (λ t, File_get_int (file t) "Partition" 0) <$> data ∧
  0 ≤ (CrossValidateTransform.scan_partitions data).1 < 2 ^ 31 ∧
  (∀ t, t ∈ data →
        File_get_int (file t) "Partition" 0 < 2 ^ 31 - 1 →
        File_get_int (file t) "Partition" 0 <
        (CrossValidateTransform.scan_partitions data).1) ∧
  ((CrossValidateTransform.scan_partitions data).1 = 0 ↔
   ∀ t, t ∈ data →
        File_get_int (file t) "Partition" 0 < 0 ∨
        File_get_int (file t) "Partition" 0 = 2 ^ 31 - 1) ∧
  (0 < (CrossValidateTransform.scan_partitions data).1 →
   ∃ t, t ∈ data ∧
        File_get_int (file t) "Partition" 0 < 2 ^ 31 - 1 ∧
        (CrossValidateTransform.scan_partitions data).1 =
        File_get_int (file t) "Partition" 0 + 1).
Proof.
  intros Hint.
  destruct (scan_partitions_fst data) as (H0 & Hle & Hmax).
  assert (∀ t, t ∈ data →
    (File_get_int (file t) "Partition" 0 < 2 ^ 31 - 1 ∧
     wrap32 (File_get_int (file t) "Partition" 0 + 1) =
     File_get_int (file t) "Partition" 0 + 1) ∨
    (File_get_int (file t) "Partition" 0 = 2 ^ 31 - 1 ∧
     wrap32 (File_get_int (file t) "Partition" 0 + 1) = - 2 ^ 31)) as Hwrap.
  { intros t Ht. specialize (Hint t Ht).
    destruct (decide (File_get_int (file t) "Partition" 0 = 2 ^ 31 - 1))
      as [->|Hne].
    - right. split; [done|]. reflexivity.
    - left. split; [lia|]. apply wrap32_id. lia. }
  split; [apply scan_partitions_snd|]. split; [|split; [|split; [split|]]].
  - split; [exact H0|]. destruct Hmax as [->|(t & Ht & ->)]; [done|].
    apply wrap32_range.
  - intros t Ht Hlt. specialize (Hle t Ht).
    destruct (Hwrap t Ht) as [[_ Hw]|[? _]]; lia.
  - intros Hz t Ht. specialize (Hle t Ht).
    destruct (Hwrap t Ht) as [[_ Hw]|[? _]]; [left; lia | by right].
  - intros Hall. destruct Hmax as [?|(t & Ht & Heq)]; [done|].
    destruct (Hwrap t Ht) as [[Hlt Hw]|[Hmaxint Hw]];
      destruct (Hall t Ht); lia.
  - intros Hpos. destruct Hmax as [?|(t & Ht & Heq)]; [lia|].
    exists t. split; [done|].
    destruct (Hwrap t Ht) as [[Hlt Hw]|[_ Hw]]; [split; [done|lia] | lia].
Qed.

(** [train] on two partitions or more without leave-one-out: the jobs. *)
Lemma run_train_cross_jobs data self :
  CrossValidateTransform.leaveOneOut self = false →
  2 ≤ (CrossValidateTransform.scan_partitions data).1 →
  ∃ self',
    run (CrossValidateTransform.train data) self =
    (Ok ((λ i, (i, filter (λ t, File_get_int (file t) "Partition" 0 ≠ i) data))
           <$> seqZ 0 (CrossValidateTransform.scan_partitions data).1),
     self') ∧
    CrossValidateTransform.description self' =
      CrossValidateTransform.description self ∧
    CrossValidateTransform.leaveOneOut self' = false ∧
    QList_size (CrossValidateTransform.transforms self') =
      Z.max (CrossValidateTransform.scan_partitions data).1
            (QList_size (CrossValidateTransform.transforms self)) ∧
    ∀ i m,
      0 ≤ i < (CrossValidateTransform.scan_partitions data).1 →
      CrossValidateTransform.grow_to
        (CrossValidateTransform.scan_partitions data).1
        (CrossValidateTransform.description self)
        (CrossValidateTransform.transforms self) !! Z.to_nat i = Some m →
      CrossValidateTransform.transforms self' !! Z.to_nat i =
      Some (Transform_train m
              (filter (λ t, File_get_int (file t) "Partition" 0 ≠ i) data)).
Proof.
  intros Hloo Hn. rewrite run_train_cross by done.
  set (N := (CrossValidateTransform.scan_partitions data).1) in *.
  set (self0 := CrossValidateTransform.set_transforms self _).
  destruct (run_for_each_train_partition
              (CrossValidateTransform.scan_partitions data).2 data
              (λ i, filter (λ t, File_get_int (file t) "Partition" 0 ≠ i) data)
              (seqZ 0 N) self0)
    as (self' & Hrun & Hd & Hl & Hlen & _ & Htrained).
  - intros i _. simpl. rewrite Hloo. apply partition_data_filter.
  - intros i Hi%elem_of_seqZ. simpl. rewrite grow_to_size. lia.
  - apply NoDup_seqZ.
  - exists self'. split; [exact Hrun|]. split; [exact Hd|].
    split; [by rewrite Hl|]. split.
    + unfold QList_size at 1. rewrite Hlen. simpl.
      fold (QList_size (CrossValidateTransform.grow_to N
              (CrossValidateTransform.description self)
              (CrossValidateTransform.transforms self))).
      apply grow_to_size.
    + intros i m Hi Hm. apply Htrained; [|exact Hm].
      apply elem_of_seqZ. lia.
Qed.

(** X3: after cross-validation training without leave-one-out, the
    partition comparator rejects a pair [(a, b)], [b] a record of the
    dataset, exactly when [b] was in the training set of the model that
    projects [a]: a record is only ever accepted against records its own
    model has not seen. *)
Theorem partition_gate_matches_held_out data self a b :
  CrossValidateTransform.leaveOneOut self = false →
  2 ≤ (CrossValidateTransform.scan_partitions data).1 →
  0 ≤ File_get_int (file a) "Partition" 0
    < (CrossValidateTransform.scan_partitions data).1 →
  b ∈ data →
  ∃ jobs self' partitionedData,
    run (CrossValidateTransform.train data) self = (Ok jobs, self') ∧
    jobs !! Z.to_nat (File_get_int (file a) "Partition" 0) =
      Some (File_get_int (file a) "Partition" 0, partitionedData) ∧
    (b ∈ partitionedData ↔ CrossValidateDistance.compare a b = - FLT_MAX).
Proof.
  intros Hloo Hn Ha Hb.
  destruct (run_train_cross_jobs data self Hloo Hn) as (self' & Hrun & _).
  eexists _, self', _. split; [exact Hrun|]. split.
  - rewrite list_lookup_fmap, lookup_seqZ_lt by lia. simpl.
    by rewrite Z2Nat.id, Z.add_0_l by lia.
  - rewrite list_elem_of_filter. unfold CrossValidateDistance.compare. simpl.
    pose proof FLT_MAX_pos. case_bool_decide as Hne; split.
    + done.
    + intros _. split; [congruence|done].
    + intros [Hp _]. congruence.
    + lia.
Qed.

End MoreTrainFacts.

(** ** What [train] keeps *)

Section TrainFrame.
Context {qreal T : Type} `{!Transform qreal T}.
Implicit Types (data : TemplateList qreal) (t : Template qreal).
Implicit Types (self : CrossValidateTransform.t T).

Lemma grow_to_lookup_ge (n : Z) (d : string) (ts : list T) (k : nat) :
  n ≤ Z.of_nat k →
  CrossValidateTransform.grow_to n d ts !! k = ts !! k.
Proof.
  intros Hk. rewrite grow_to_spec.
  destruct (decide (k < length ts)%nat) as [Hlt|Hge].
  - by rewrite lookup_app_l.
  - rewrite (lookup_ge_None_2 ts) by lia. apply lookup_ge_None_2.
    rewrite length_app, length_replicate. unfold QList_size. lia.
Qed.

Lemma grow_to_enough (n : Z) (d : string) (ts : list T) :
  n ≤ QList_size ts → CrossValidateTransform.grow_to n d ts = ts.
Proof.
  intros Hn. rewrite grow_to_spec.
  replace (Z.to_nat (n - QList_size ts)) with 0%nat by lia.
  apply app_nil_r.
Qed.

(** One job changes the model of its partition and nothing else. *)
Lemma train_partition_frame (partitions : list Z) data (i : Z) self :
  CrossValidateTransform.description
    (run (CrossValidateTransform.train_partition partitions data i) self).2 =
    CrossValidateTransform.description self ∧
  CrossValidateTransform.leaveOneOut
    (run (CrossValidateTransform.train_partition partitions data i) self).2 =
    CrossValidateTransform.leaveOneOut self ∧
  length (CrossValidateTransform.transforms
    (run (CrossValidateTransform.train_partition partitions data i) self).2) =
    length (CrossValidateTransform.transforms self) ∧
  (∀ k, Z.of_nat k ≠ i →
        CrossValidateTransform.transforms
          (run (CrossValidateTransform.train_partition partitions data i)
               self).2 !! k =
        CrossValidateTransform.transforms self !! k) ∧
  (∀ job, (run (CrossValidateTransform.train_partition partitions data i)
               self).1 = Ok job → job.1 = i).
Proof.
  unfold CrossValidateTransform.train_partition. rewrite run_bind. simpl.
  destruct (CrossValidateTransform.partition_data _ _ _ _) as [pd|e]; simpl;
    [|by repeat split].
  destruct (QList_at (CrossValidateTransform.transforms self) i) as [m|e]
    eqn:Hm; simpl; [|by repeat split].
  apply QList_at_Ok in Hm as [Hi Hm].
  split; [done|]. split; [done|]. split; [apply length_insert|]. split.
  - intros k Hk. apply list_lookup_insert_ne. lia.
  - by intros job [= <-].
Qed.

Lemma for_each_train_partition_frame (partitions : list Z) data
    (indices : list Z) self :
  CrossValidateTransform.description
    (run (CrossValidateTransform.for_each
            (CrossValidateTransform.train_partition partitions data) indices)
         self).2 = CrossValidateTransform.description self ∧
  CrossValidateTransform.leaveOneOut
    (run (CrossValidateTransform.for_each
            (CrossValidateTransform.train_partition partitions data) indices)
         self).2 = CrossValidateTransform.leaveOneOut self ∧
  length (CrossValidateTransform.transforms
    (run (CrossValidateTransform.for_each
            (CrossValidateTransform.train_partition partitions data) indices)
         self).2) = length (CrossValidateTransform.transforms self) ∧
  (∀ k, Z.of_nat k ∉ indices →
        CrossValidateTransform.transforms
          (run (CrossValidateTransform.for_each
                  (CrossValidateTransform.train_partition partitions data)
                  indices) self).2 !! k =
        CrossValidateTransform.transforms self !! k) ∧
  (∀ jobs, (run (CrossValidateTransform.for_each
                   (CrossValidateTransform.train_partition partitions data)
                   indices) self).1 = Ok jobs → jobs.*1 = indices).
Proof.
  revert self. induction indices as [|i indices IH]; intros self.
  - simpl. repeat split; try done. by intros jobs [= <-].
  - rewrite for_each_cons, run_bind.
    destruct (train_partition_frame partitions data i self)
      as (Hd & Hl & Hlen & Hother & Hjob).
    destruct (run (CrossValidateTransform.train_partition partitions data i)
                  self) as [[job|e] self1]; cbn [fst snd] in *;
      cbn beta iota.
    + rewrite run_bind.
      destruct (IH self1) as (Hd' & Hl' & Hlen' & Hother' & Hjobs).
      destruct (run (CrossValidateTransform.for_each _ indices) self1)
        as [[jobs|e] self2]; simpl in *.
      * split; [congruence|]. split; [congruence|]. split; [congruence|].
        split.
        -- intros k [Hk Hks]%not_elem_of_cons.
           by rewrite Hother', Hother.
        -- intros js [= <-]. simpl. f_equal; [by apply Hjob | by apply Hjobs].
      * split; [congruence|]. split; [congruence|]. split; [congruence|].
        split; [|done]. intros k [Hk Hks]%not_elem_of_cons.
        by rewrite Hother', Hother.
    + split; [done|]. split; [done|]. split; [done|]. split; [|done].
      intros k [Hk Hks]%not_elem_of_cons. by apply Hother.
Qed.

(** X4: whatever its outcome, [train] leaves [description] and
    [leaveOneOut] as they were and never removes a model: afterwards the
    ensemble holds the larger of [numPartitions] and the number of models
    it held, and the models past the partitions that were trained are the
    ones that were there before. *)
Theorem train_never_removes_models data self :
  CrossValidateTransform.description
    (run (CrossValidateTransform.train data) self).2 =
    CrossValidateTransform.description self ∧
  CrossValidateTransform.leaveOneOut
    (run (CrossValidateTransform.train data) self).2 =
    CrossValidateTransform.leaveOneOut self ∧
  QList_size (CrossValidateTransform.transforms
                (run (CrossValidateTransform.train data) self).2) =
    Z.max (CrossValidateTransform.scan_partitions data).1
          (QList_size (CrossValidateTransform.transforms self)) ∧
  ∀ k, Z.max (CrossValidateTransform.scan_partitions data).1 1 ≤ Z.of_nat k →
       CrossValidateTransform.transforms
         (run (CrossValidateTransform.train data) self).2 !! k =
       CrossValidateTransform.transforms self !! k.
Proof.
  destruct (decide ((CrossValidateTransform.scan_partitions data).1 < 2))
    as [Hn|Hn].
  - rewrite run_train_degenerate by done.
    pose proof (grow_to_size (CrossValidateTransform.scan_partitions data).1
                  (CrossValidateTransform.description self)
                  (CrossValidateTransform.transforms self)) as Hsize.
    pose proof (grow_to_lookup_ge
                  (CrossValidateTransform.scan_partitions data).1
                  (CrossValidateTransform.description self)
                  (CrossValidateTransform.transforms self)) as Hge.
    destruct (CrossValidateTransform.grow_to _ _ _) as [|m rest]; simpl.
    + split; [done|]. split; [done|]. split; [exact Hsize|].
      intros k Hk. rewrite <- Hge by lia. done.
    + split; [done|]. split; [done|]. split; [exact Hsize|].
      intros [|k] Hk; [lia|]. rewrite <- Hge by lia. done.
  - rewrite run_train_cross by lia.
    destruct (for_each_train_partition_frame
                (CrossValidateTransform.scan_partitions data).2 data
                (seqZ 0 (CrossValidateTransform.scan_partitions data).1)
                (CrossValidateTransform.set_transforms self
                   (CrossValidateTransform.grow_to
                      (CrossValidateTransform.scan_partitions data).1
                      (CrossValidateTransform.description self)
                      (CrossValidateTransform.transforms self))))
      as (Hd & Hl & Hlen & Hother & _).
    split; [exact Hd|]. split; [exact Hl|]. split.
    + unfold QList_size at 1. rewrite Hlen. simpl. apply grow_to_size.
    + intros k Hk. rewrite Hother by (rewrite elem_of_seqZ; lia).
      simpl. apply grow_to_lookup_ge. lia.
Qed.

(** X5: when [train] returns, it has started one job for the first model
    if there are fewer than two partitions, and otherwise one job per
    partition, for the partitions [0 .. numPartitions-1] in this order,
    with or without leave-one-out. *)
Theorem train_starts_one_job_per_partition data self jobs self' :
  run (CrossValidateTransform.train data) self = (Ok jobs, self') →
  jobs.*1 =
  if bool_decide ((CrossValidateTransform.scan_partitions data).1 < 2)
  then [0]
  else seqZ 0 (CrossValidateTransform.scan_partitions data).1.
Proof.
  intros Hrun. case_bool_decide as Hn.
  - rewrite run_train_degenerate in Hrun by done.
    destruct (CrossValidateTransform.grow_to _ _ _); [done|].
    by injection Hrun as <- _.
  - rewrite run_train_cross in Hrun by lia.
    destruct (for_each_train_partition_frame
                (CrossValidateTransform.scan_partitions data).2 data
                (seqZ 0 (CrossValidateTransform.scan_partitions data).1)
                (CrossValidateTransform.set_transforms self
                   (CrossValidateTransform.grow_to
                      (CrossValidateTransform.scan_partitions data).1
                      (CrossValidateTransform.description self)
                      (CrossValidateTransform.transforms self))))
      as (_ & _ & _ & _ & Hjobs).
    apply Hjobs. by rewrite Hrun.
Qed.

(** The size of the ensemble after [train]. *)
Lemma train_size data self :
  QList_size (CrossValidateTransform.transforms
                (run (CrossValidateTransform.train data) self).2) =
  Z.max (CrossValidateTransform.scan_partitions data).1
        (QList_size (CrossValidateTransform.transforms self)).
Proof.
  destruct (decide ((CrossValidateTransform.scan_partitions data).1 < 2))
    as [Hn|Hn].
  - rewrite run_train_degenerate by done.
    pose proof (grow_to_size (CrossValidateTransform.scan_partitions data).1
                  (CrossValidateTransform.description self)
                  (CrossValidateTransform.transforms self)) as Hsize.
    by destruct (CrossValidateTransform.grow_to _ _ _).
  - rewrite run_train_cross by lia.
    destruct (for_each_train_partition_frame
                (CrossValidateTransform.scan_partitions data).2 data
                (seqZ 0 (CrossValidateTransform.scan_partitions data).1)
                (CrossValidateTransform.set_transforms self
                   (CrossValidateTransform.grow_to
                      (CrossValidateTransform.scan_partitions data).1
                      (CrossValidateTransform.description self)
                      (CrossValidateTransform.transforms self))))
      as (_ & _ & Hlen & _ & _).
    unfold QList_size at 1. rewrite Hlen. simpl. apply grow_to_size.
Qed.

(** X6: once [train] has returned, [project] succeeds on every record of
    the training data whose "Partition" is not negative and below the
    largest [int] (where [partitions.last()+1] does not wrap): the model
    of its partition exists and the result is that model's projection. *)
Theorem project_after_train_succeeds data self jobs self' t
    (dst : Template qreal) :
  run (CrossValidateTransform.train data) self = (Ok jobs, self') →
  t ∈ data →
  0 ≤ File_get_int (file t) "Partition" 0 < 2 ^ 31 - 1 →
  ∃ m,
    CrossValidateTransform.transforms self'
      !! Z.to_nat (File_get_int (file t) "Partition" 0) = Some m ∧
    run (CrossValidateTransform.project t dst) self' =
    (Ok (Transform_project m t dst), self').
Proof.
  intros Hrun Ht Hp.
  pose proof (train_size data self) as Hsize. rewrite Hrun in Hsize.
  simpl in Hsize.
  destruct (scan_partitions_fst data) as (_ & Hle & _).
  specialize (Hle t Ht). rewrite wrap32_id in Hle by lia.
  destruct (lookup_lt_is_Some_2 (CrossValidateTransform.transforms self')
              (Z.to_nat (File_get_int (file t) "Partition" 0))) as [m Hm].
  { unfold QList_size in Hsize. lia. }
  exists m. split; [exact Hm|].
  unfold CrossValidateTransform.project. rewrite run_bind. simpl.
  assert (QList_at (CrossValidateTransform.transforms self')
            (File_get_int (file t) "Partition" 0) = Ok m) as ->
    by (apply QList_at_Ok; split; [lia|done]).
  done.
Qed.

(** X18: training a second time on the same data, without leave-one-out
    and with two partitions or more, constructs no model: every model of
    a partition is the one of the first training, trained once more on
    the same training set, and the ensemble keeps its size. *)
Theorem train_again_retrains_models data self :
  CrossValidateTransform.leaveOneOut self = false →
  2 ≤ (CrossValidateTransform.scan_partitions data).1 →
  ∃ jobs self1 self2,
    run (CrossValidateTransform.train data) self = (Ok jobs, self1) ∧
    run (CrossValidateTransform.train data) self1 = (Ok jobs, self2) ∧
    length (CrossValidateTransform.transforms self2) =
      length (CrossValidateTransform.transforms self1) ∧
    ∀ i m,
      0 ≤ i < (CrossValidateTransform.scan_partitions data).1 →
      CrossValidateTransform.transforms self1 !! Z.to_nat i = Some m →
      CrossValidateTransform.transforms self2 !! Z.to_nat i =
      Some (Transform_train m
              (filter (λ t, File_get_int (file t) "Partition" 0 ≠ i) data)).
Proof.
  intros Hloo Hn.
  destruct (run_train_cross_jobs data self Hloo Hn)
    as (self1 & Hrun1 & Hd1 & Hl1 & Hsize1 & _).
  destruct (run_train_cross_jobs data self1 Hl1 Hn)
    as (self2 & Hrun2 & _ & _ & Hsize2 & Htrained2).
  eexists _, self1, self2. split; [exact Hrun1|]. split; [exact Hrun2|].
  split; [unfold QList_size in *; lia|].
  intros i m Hi Hm. apply Htrained2; [done|].
  rewrite grow_to_enough by lia. done.
Qed.

End TrainFrame.

(** ** What leave-one-out removes *)

Lemma elem_of_concat {A} (x : A) (ls : list (list A)) :
  x ∈ concat ls ↔ ∃ l, x ∈ l ∧ l ∈ ls.
Proof.
  induction ls as [|l ls IH]; simpl.
  - rewrite elem_of_nil. split; [done|]. by intros (l & _ & ?%elem_of_nil).
  - rewrite elem_of_app, IH. split.
    + intros [Hx|(l' & Hx & Hl')].
      * exists l. split; [done|]. apply elem_of_cons. by left.
      * exists l'. split; [done|]. apply elem_of_cons. by right.
    + intros (l' & Hx & [->|Hl']%elem_of_cons); [by left|].
      right. by exists l'.
Qed.

Section LeaveOneOutRemoved.
Context {qreal : Type}.
Implicit Types (data : TemplateList qreal) (t : Template qreal).

Lemma File_matches_subject t (subject : string) :
  File_matches (file t) "Subject" subject = true →
  File_get_QString (file t) "Subject" "" = subject.
Proof.
  unfold File_matches, File_get_QString.
  destruct (m_metadata (file t) !! "Subject") as [[s| |]|]; try done.
  by intros ->%bool_decide_eq_true.
Qed.

(** The positions the scan collects: a position is collected exactly when
    the group of the record at that position is smaller than [i] and the
    position is the group's element number [i mod |S|]. *)
Lemma leave_one_out_removed_elem_of (partitions : list Z) data (i : Z) :
  Forall has_subject data →
  ∃ removed,
    CrossValidateTransform.scan true partitions data i (length data) [] =
      Ok removed ∧
    ∀ p, p ∈ removed ↔
         ∃ t, 0 ≤ p ∧ data !! Z.to_nat p = Some t ∧
              QList_size (TemplateList_find data "Subject"
                            (File_get_QString (file t) "Subject" "")) < i ∧
              TemplateList_find data "Subject"
                (File_get_QString (file t) "Subject" "")
                !! Z.to_nat (i `mod` QList_size
                               (TemplateList_find data "Subject"
                                  (File_get_QString (file t) "Subject" "")))
              = Some p.
Proof.
  intros Hall.
  destruct (scan_leave_one_out partitions data i (length data) [] Hall)
    as (cs & Hscan & Hrules); [done|].
  rewrite firstn_all in Hrules. simpl in Hscan.
  exists (concat cs). split; [exact Hscan|]. intros p.
  assert (p ∈ concat cs ↔
          ∃ t, t ∈ data ∧
               QList_size (TemplateList_find data "Subject"
                             (File_get_QString (file t) "Subject" "")) < i ∧
               TemplateList_find data "Subject"
                 (File_get_QString (file t) "Subject" "")
                 !! Z.to_nat (i `mod` QList_size
                                (TemplateList_find data "Subject"
                                   (File_get_QString (file t) "Subject" "")))
               = Some p) as ->.
  { rewrite elem_of_concat. split.
    - intros (c & Hp & Hc).
      apply list_elem_of_lookup_1 in Hc as [k Hk].
      destruct (Forall2_lookup_r _ _ _ _ _ Hrules Hk) as (t & Ht & [Hlt Hge]).
      exists t. split.
      { apply elem_of_reverse. by eapply list_elem_of_lookup_2. }
      destruct (decide (QList_size (TemplateList_find data "Subject"
                  (File_get_QString (file t) "Subject" "")) < i)) as [Hi|Hi].
      + split; [done|]. destruct (Hlt Hi) as (q & Hq & ->).
        apply list_elem_of_singleton in Hp as ->. done.
      + rewrite Hge in Hp by lia. by apply elem_of_nil in Hp.
    - intros (t & Ht & Hi & Hp).
      apply elem_of_reverse, list_elem_of_lookup_1 in Ht as [k Hk].
      destruct (Forall2_lookup_l _ _ _ _ _ Hrules Hk) as (c & Hc & [Hlt _]).
      exists c. split; [|by eapply list_elem_of_lookup_2].
      destruct (Hlt Hi) as (q & Hq & ->). rewrite Hp in Hq.
      injection Hq as <-. by apply list_elem_of_singleton. }
  split.
  - intros (t & Ht & Hi & Hp).
    apply list_elem_of_lookup_2 in Hp as Hin.
    apply TemplateList_find_elem_of in Hin as (tp & Hp0 & Hlp & Hmatch).
    apply File_matches_subject in Hmatch.
    exists tp. rewrite Hmatch. done.
  - intros (t & Hp0 & Hlp & Hi & Hp). exists t.
    split; [by eapply list_elem_of_lookup_2|done].
Qed.

(** X9: in leave-one-out mode, on records that all hold a subject, the
    training set of partition [i] is the dataset, in its order, without
    exactly the records that are element number [i mod |S|] of their own
    subject group [S] when [i > |S|]; every position removed is a position
    of the dataset. *)
Theorem leave_one_out_training_set (partitions : list Z) data (i : Z) :
  Forall has_subject data →
  ∃ removed,
    CrossValidateTransform.scan true partitions data i (length data) [] =
      Ok removed ∧
    CrossValidateTransform.partition_data true partitions data i =
      Ok (filter (λ jt, jt.1 ∉ removed)
                 (imap (λ j t, (Z.of_nat j, t)) data)).*2 ∧
    (∀ p, p ∈ removed → 0 ≤ p < QList_size data) ∧
    ∀ (j : nat) t,
      data !! j = Some t →
      (Z.of_nat j ∈ removed ↔
       QList_size (TemplateList_find data "Subject"
                     (File_get_QString (file t) "Subject" "")) < i ∧
       TemplateList_find data "Subject"
         (File_get_QString (file t) "Subject" "")
         !! Z.to_nat (i `mod` QList_size
                        (TemplateList_find data "Subject"
                           (File_get_QString (file t) "Subject" "")))
       = Some (Z.of_nat j)).
Proof.
  intros Hall.
  destruct (leave_one_out_removed_elem_of partitions data i Hall)
    as (removed & Hscan & Hin).
  exists removed. split; [exact Hscan|]. split; [|split].
  - unfold CrossValidateTransform.partition_data. rewrite Hscan. simpl.
    by rewrite remove_sorted_spec, kept_from_numbered.
  - intros p (t & Hp & Hl & _)%Hin. apply lookup_lt_Some in Hl.
    unfold QList_size. lia.
  - intros j t Hj. rewrite Hin. split.
    + intros (t' & _ & Hl & Hrule). rewrite Nat2Z.id, Hj in Hl.
      by injection Hl as <-.
    + intros Hrule. exists t. rewrite Nat2Z.id. split; [lia|done].
Qed.

(** X10: in leave-one-out mode a record that is the only one of its
    subject is removed from the training set of every partition [i >= 2]. *)
Theorem leave_one_out_removes_single_record_subjects (partitions : list Z)
    data (i : Z) (j : nat) t :
  Forall has_subject data →
  data !! j = Some t →
  QList_size (TemplateList_find data "Subject"
                (File_get_QString (file t) "Subject" "")) = 1 →
  2 ≤ i →
  ∃ removed,
    CrossValidateTransform.scan true partitions data i (length data) [] =
      Ok removed ∧
    Z.of_nat j ∈ removed.
Proof.
  intros Hall Hj Hone Hi.
  destruct (leave_one_out_removed_elem_of partitions data i Hall)
    as (removed & Hscan & Hin).
  exists removed. split; [exact Hscan|]. apply Hin. exists t.
  rewrite Nat2Z.id. split; [lia|]. split; [exact Hj|].
  rewrite Hone. split; [lia|]. rewrite Z.mod_1_r. simpl.
  assert (has_subject t) as Hs.
  { rewrite Forall_forall in Hall. eapply Hall, list_elem_of_lookup_2, Hj. }
  pose proof (find_own_subject data j t _ Hj (has_subject_get t Hs)) as Hown.
  destruct (TemplateList_find data "Subject" _) as [|p [|q S]];
    unfold QList_size in Hone; simpl in Hone; try lia.
  by apply list_elem_of_singleton in Hown as <-.
Qed.

(** The scan reads the records' subjects and nothing else. *)
Lemma find_from_same_subjects (o : Z) (subject : string) data data' :
  Forall2 (λ t t', m_metadata (file t) !! "Subject" =
                   m_metadata (file t') !! "Subject") data data' →
  find_from o "Subject" subject data = find_from o "Subject" subject data'.
Proof.
  intros Hsame. revert o. induction Hsame as [|t t' data data' Ht _ IH];
    intros o; simpl; [done|].
  unfold File_matches. rewrite Ht, IH. done.
Qed.

(** X8: the leave-one-out scan reads the records' "Subject" and nothing
    else: two datasets whose records carry, position by position, the
    same subjects give the same exclusion list for every partition,
    whatever their "Partition" attributes and partition lists are. *)
Theorem leave_one_out_reads_only_subjects (partitions partitions' : list Z)
    data data' (i : Z) :
  Forall2 (λ t t', m_metadata (file t) !! "Subject" =
                   m_metadata (file t') !! "Subject") data data' →
  CrossValidateTransform.scan true partitions data i (length data) [] =
  CrossValidateTransform.scan true partitions' data' i (length data') [].
Proof.
  intros Hsame. rewrite <- (Forall2_length _ _ _ Hsame).
  assert (∀ n removed, (n ≤ length data)%nat →
    CrossValidateTransform.scan true partitions data i n removed =
    CrossValidateTransform.scan true partitions' data' i n removed) as Hgen.
  { induction n as [|n IH]; intros removed Hn; [done|].
    cbn [CrossValidateTransform.scan].
    assert (CrossValidateTransform.scan_body true partitions data i
              (Z.of_nat n) removed =
            CrossValidateTransform.scan_body true partitions' data' i
              (Z.of_nat n) removed) as ->.
    { destruct (lookup_lt_is_Some_2 data n) as [t Ht]; [lia|].
      destruct (Forall2_lookup_l _ _ _ _ _ Hsame Ht) as (t' & Ht' & Hs).
      unfold CrossValidateTransform.scan_body.
      rewrite (QList_at_nat _ _ _ Ht), (QList_at_nat _ _ _ Ht'). simpl.
      unfold File_get_QString_required. rewrite Hs.
      destruct (m_metadata (file t') !! "Subject") as [[s| |]|]; try done.
      simpl. unfold TemplateList_find.
      by rewrite (find_from_same_subjects 0 s data data' Hsame). }
    destruct (CrossValidateTransform.scan_body _ _ _ _ _ _); [|done].
    simpl. apply IH. lia. }
  by apply Hgen.
Qed.

End LeaveOneOutRemoved.

(** ** Streams that hold more than one ensemble *)

Section StoreLoadMore.
Context {qreal T : Type} `{!Transform qreal T}.
Implicit Types (self e : CrossValidateTransform.t T) (ts rs : list T).

Lemma load_each_length rs (stream : QDataStream) :
  length (CrossValidateTransform.load_each rs stream).1 = length rs.
Proof.
  revert stream. induction rs as [|r rs IH]; intros stream; simpl; [done|].
  destruct (Transform_load r stream) as [r' stream'].
  specialize (IH stream').
  destruct (CrossValidateTransform.load_each rs stream') as [rs' stream''].
  simpl in *. by rewrite IH.
Qed.

Lemma load_each_app rs1 rs2 (stream : QDataStream) :
  CrossValidateTransform.load_each (rs1 ++ rs2) stream =
  ((CrossValidateTransform.load_each rs1 stream).1 ++
   (CrossValidateTransform.load_each rs2
      (CrossValidateTransform.load_each rs1 stream).2).1,
   (CrossValidateTransform.load_each rs2
      (CrossValidateTransform.load_each rs1 stream).2).2).
Proof.
  revert stream. induction rs1 as [|r rs1 IH]; intros stream; simpl.
  - by destruct (CrossValidateTransform.load_each rs2 stream).
  - destruct (Transform_load r stream) as [r' stream'].
    rewrite IH.
    by destruct (CrossValidateTransform.load_each rs1 stream').
Qed.

Lemma write_int32_app (n : Z) (stream : QDataStream) :
  write_int32 n stream = stream ++ write_int32 n [].
Proof. reflexivity. Qed.

(** X11: [store] appends to what is already on the stream and leaves the
    object as it is.  Provided the model abstraction keeps its contract,
    [load] into a transform that holds no more models than were stored
    reads exactly the bytes [store] wrote and hands back what follows
    them untouched, so several ensembles can follow each other on one
    stream. *)
Theorem load_reads_exactly_what_store_wrote e self (rest : QDataStream) :
  store_load_contract qreal T →
  QList_size (CrossValidateTransform.transforms e) < 2 ^ 31 →
  (length (CrossValidateTransform.transforms self) ≤
   length (CrossValidateTransform.transforms e))%nat →
  ∃ bytes self',
    (∀ stream,
       run (CrossValidateTransform.store stream) e = (Ok (stream ++ bytes), e)) ∧
    run (CrossValidateTransform.load (bytes ++ rest)) self = (Ok rest, self') ∧
    Forall2 behaves_as (CrossValidateTransform.transforms self')
                       (CrossValidateTransform.transforms e).
Proof.
  intros Hc Hsize Hlen.
  exists (write_int32 (QList_size (CrossValidateTransform.transforms e)) []
          ++ concat (Transform_store <$> CrossValidateTransform.transforms e)).
  destruct (load_each_stored
              (CrossValidateTransform.grow_to
                 (QList_size (CrossValidateTransform.transforms e))
                 (CrossValidateTransform.description self)
                 (CrossValidateTransform.transforms self))
              (CrossValidateTransform.transforms e) rest Hc)
    as (ts' & Hload & Hts').
  { apply Nat2Z.inj. fold (QList_size (CrossValidateTransform.grow_to
      (QList_size (CrossValidateTransform.transforms e))
      (CrossValidateTransform.description self)
      (CrossValidateTransform.transforms self))).
    rewrite grow_to_size. unfold QList_size. lia. }
  exists (CrossValidateTransform.set_transforms self ts').
  split; [|split; [|exact Hts']].
  - intros stream. rewrite run_store, write_int32_app.
    by rewrite <- app_assoc.
  - rewrite run_load, <- app_assoc, read_write_int32
      by (split; [unfold QList_size; lia | exact Hsize]).
    cbn [fst snd]. by rewrite Hload.
Qed.

(** X12: [load] always returns, whatever the stream holds; it leaves
    [description] and [leaveOneOut] as they were and never removes a
    model: afterwards the ensemble holds the larger of the count read
    from the stream (0 when the stream has fewer than four bytes) and the
    number of models it held. *)
Theorem load_never_removes_models (stream : QDataStream) self :
  is_Ok (run (CrossValidateTransform.load stream) self).1 = true ∧
  CrossValidateTransform.description
    (run (CrossValidateTransform.load stream) self).2 =
    CrossValidateTransform.description self ∧
  CrossValidateTransform.leaveOneOut
    (run (CrossValidateTransform.load stream) self).2 =
    CrossValidateTransform.leaveOneOut self ∧
  QList_size (CrossValidateTransform.transforms
                (run (CrossValidateTransform.load stream) self).2) =
    Z.max (read_int32 stream).1
          (QList_size (CrossValidateTransform.transforms self)) ∧
  ((length stream < 4)%nat →
   length (CrossValidateTransform.transforms
             (run (CrossValidateTransform.load stream) self).2) =
   length (CrossValidateTransform.transforms self)).
Proof.
  rewrite run_load. cbn [fst snd].
  assert (QList_size (CrossValidateTransform.transforms
            (CrossValidateTransform.set_transforms self
               (CrossValidateTransform.load_each
                  (CrossValidateTransform.grow_to (read_int32 stream).1
                     (CrossValidateTransform.description self)
                     (CrossValidateTransform.transforms self))
                  (read_int32 stream).2).1)) =
          Z.max (read_int32 stream).1
                (QList_size (CrossValidateTransform.transforms self)))
    as Hsize.
  { simpl. unfold QList_size at 1. rewrite load_each_length.
    apply grow_to_size. }
  split; [done|]. split; [done|]. split; [done|]. split; [exact Hsize|].
  intros Hshort. apply Nat2Z.inj.
  fold (QList_size (CrossValidateTransform.transforms self)).
  etrans; [apply Hsize|].
  assert ((read_int32 stream).1 = 0) as ->.
  { destruct stream as [|? [|? [|? [|? ?]]]]; simpl in Hshort; try lia; done. }
  unfold QList_size. lia.
Qed.

(** X13: [load] into a transform that already holds more models than were
    stored keeps them all: the ensemble keeps the receiver's size, its
    first models behave as the stored ones, and the models past the
    stored count are the receiver's, each loaded from the stream that
    follows the stored bytes. *)
Theorem load_into_larger_ensemble_keeps_extra_models e self
    (rest : QDataStream) :
  store_load_contract qreal T →
  QList_size (CrossValidateTransform.transforms e) < 2 ^ 31 →
  (length (CrossValidateTransform.transforms e) ≤
   length (CrossValidateTransform.transforms self))%nat →
  ∃ bytes,
    run (CrossValidateTransform.store []) e = (Ok bytes, e) ∧
    length (CrossValidateTransform.transforms
              (run (CrossValidateTransform.load (bytes ++ rest)) self).2) =
      length (CrossValidateTransform.transforms self) ∧
    Forall2 behaves_as
      (take (length (CrossValidateTransform.transforms e))
            (CrossValidateTransform.transforms
               (run (CrossValidateTransform.load (bytes ++ rest)) self).2))
      (CrossValidateTransform.transforms e) ∧
    drop (length (CrossValidateTransform.transforms e))
         (CrossValidateTransform.transforms
            (run (CrossValidateTransform.load (bytes ++ rest)) self).2) =
      (CrossValidateTransform.load_each
         (drop (length (CrossValidateTransform.transforms e))
               (CrossValidateTransform.transforms self)) rest).1.
Proof.
  intros Hc Hsize Hlen.
  eexists. split; [apply run_store|].
  rewrite run_load, <- app_assoc, read_write_int32
    by (split; [unfold QList_size; lia | exact Hsize]).
  cbn [fst snd CrossValidateTransform.set_transforms
       CrossValidateTransform.transforms].
  rewrite grow_to_enough by (unfold QList_size; lia).
  rewrite load_each_length. split; [done|].
  destruct (load_each_stored
              (take (length (CrossValidateTransform.transforms e))
                    (CrossValidateTransform.transforms self))
              (CrossValidateTransform.transforms e) rest Hc)
    as (ts' & Hload & Hts').
  { rewrite length_take. lia. }
  assert ((CrossValidateTransform.load_each
             (CrossValidateTransform.transforms self)
             (concat (Transform_store <$> CrossValidateTransform.transforms e)
              ++ rest)).1 =
          ts' ++ (CrossValidateTransform.load_each
                    (drop (length (CrossValidateTransform.transforms e))
                          (CrossValidateTransform.transforms self)) rest).1)
    as ->.
  { rewrite <- (take_drop (length (CrossValidateTransform.transforms e))
                  (CrossValidateTransform.transforms self)) at 1.
    by rewrite load_each_app, Hload. }
  pose proof (Forall2_length _ _ _ Hts') as Hlen'. split.
  - rewrite take_app_le by lia. rewrite take_ge by lia. done.
  - rewrite drop_app_ge by lia.
    replace (length (CrossValidateTransform.transforms e) - length ts')%nat
      with 0%nat by lia.
    done.
Qed.

End StoreLoadMore.

(** ** The comparators and the order of their keys *)

Section FilterDistanceOrder.
Context {qreal : Type}.
Variable filters : gmap string (list string).
Implicit Types (a b : Template qreal).

(** X14: the result of the allowlist comparator does not depend on the
    order in which the table hands out its keys: walking any list that
    holds exactly the keys of the table, in any order and with
    repetitions, gives what [compare] returns. *)
Theorem allowlist_independent_of_key_order (keys : list string) a b :
  (∀ key, key ∈ keys ↔ is_Some (filters !! key)) →
  FilterDistance.compare_keys filters keys a =
  FilterDistance.compare filters a b.
Proof.
  intros Hkeys. unfold FilterDistance.compare.
  pose proof FLT_MAX_pos as Hpos.
  destruct (filter_compare_keys_cases filters keys a) as [H0|Hr];
    destruct (filter_compare_keys_cases filters (map_to_list filters).*1 a)
      as [H0'|Hr']; try congruence; exfalso.
  - apply filter_compare_keys_rejects in Hr'
      as (key & allowed & Hin & Hl & Hne & Hrej).
    assert (FilterDistance.compare_keys filters keys a = - FLT_MAX);
      [|lia].
    apply filter_compare_keys_rejects. exists key, allowed.
    split; [apply Hkeys; by exists allowed | done].
  - apply filter_compare_keys_rejects in Hr
      as (key & allowed & Hin & Hl & Hne & Hrej).
    assert (FilterDistance.compare_keys filters (map_to_list filters).*1 a
            = - FLT_MAX); [|lia].
    apply filter_compare_keys_rejects. exists key, allowed.
    split; [apply filter_keys_elem_of; by exists allowed | done].
Qed.

End FilterDistanceOrder.

Section MetadataDistanceMore.
Context {qreal : Type} `{!Qreal qreal} `{!QtUtils qreal}.
Implicit Types (a b : Template qreal).


Lemma metadata_compare_single (key : string) a b :
  MetadataDistance.compare [key] a b = 0 ↔ MetadataDistance_accepts a b key.
Proof.
  unfold MetadataDistance.compare.
  destruct (metadata_compare_keys_accepts [key] a b) as [Hiff _].
  rewrite Hiff. split.
  - intros Hall. apply Hall. by apply list_elem_of_singleton.
  - by intros Hacc k ->%list_elem_of_singleton.
Qed.

(** X16: a query record that holds nothing under a key does not make the
    comparator skip the key: the query value becomes the rendering of the
    default point, and when that rendering is not empty and parses back
    as a point, the key passes only for a target value that is empty or
    renders an integer between that point's coordinates. *)
Theorem metadata_missing_query_is_default_point (key : string) a b
    (x y : qreal) :
  m_metadata (file b) !! key = None →
  QtUtils_toString (qreal_zero, qreal_zero) ≠ "" →
  QtUtils_toPoint (QtUtils_toString (qreal_zero, qreal_zero)) = Some (x, y) →
  MetadataDistance.query_value b key =
    QtUtils_toString (qreal_zero, qreal_zero) ∧
  (MetadataDistance.compare [key] a b = 0 ↔
   File_get_QString (file a) key "" = "" ∨
   ∃ v, qreal_to_int x ≤ v ≤ qreal_to_int y ∧
        File_get_QString (file a) key "" = QString_number v).
Proof.
  intros Hnone Hne Hparse.
  assert (MetadataDistance.query_value b key =
          QtUtils_toString (qreal_zero, qreal_zero)) as Hq.
  { unfold MetadataDistance.query_value, File_get_QString, File_get_QPointF.
    by rewrite Hnone. }
  split; [exact Hq|].
  rewrite metadata_compare_single. unfold MetadataDistance_accepts.
  rewrite Hq, Hparse. simpl. tauto.
Qed.

(** X17: a range whose upper bound is below its lower bound holds no
    integer: when the query value parses as such a point, every target
    value that is not empty is rejected. *)
Theorem metadata_empty_range_rejects (key : string) a b (x y : qreal) :
  File_get_QString (file a) key "" ≠ "" →
  MetadataDistance.query_value b key ≠ "" →
  QtUtils_toPoint (MetadataDistance.query_value b key) = Some (x, y) →
  qreal_to_int y < qreal_to_int x →
  MetadataDistance.compare [key] a b = - FLT_MAX.
Proof.
  intros Ha Hb Hparse Hempty.
  destruct (metadata_compare_keys_accepts [key] a b) as [_ [H0|Hr]];
    [|exact Hr].
  apply metadata_compare_single in H0. unfold MetadataDistance_accepts in H0.
  rewrite Hparse in H0. simpl in H0.
  destruct H0 as [?|[?|(v & Hv & _)]]; [done|done|lia].
Qed.

End MetadataDistanceMore.

(** ** The further theorems on the sample records *)

Lemma sample_train_run :
  run (CrossValidateTransform.train Sample.dataset) (Sample.fresh false) =
  (Ok [(0, [Sample.r1; Sample.r2; Sample.r3]);
       (1, [Sample.r0; Sample.r2; Sample.r3]);
       (2, [Sample.r0; Sample.r1; Sample.r3]);
       (3, [Sample.r0; Sample.r1; Sample.r2])], Sample.cross_validated).
Proof. by vm_compute. Qed.

Lemma partition_gate_matches_held_out_witness :
  CrossValidateTransform.leaveOneOut (Sample.fresh false) = false ∧
  2 ≤ (CrossValidateTransform.scan_partitions Sample.dataset).1 ∧
  0 ≤ File_get_int (file Sample.r1) "Partition" 0
    < (CrossValidateTransform.scan_partitions Sample.dataset).1 ∧
  Sample.r2 ∈ Sample.dataset ∧
  ∃ jobs self' partitionedData,
    run (CrossValidateTransform.train Sample.dataset) (Sample.fresh false)
      = (Ok jobs, self') ∧
    jobs !! Z.to_nat (File_get_int (file Sample.r1) "Partition" 0) =
      Some (File_get_int (file Sample.r1) "Partition" 0, partitionedData) ∧
    (Sample.r2 ∈ partitionedData ↔
     CrossValidateDistance.compare Sample.r1 Sample.r2 = - FLT_MAX).
Proof.
  assert (Sample.r2 ∈ Sample.dataset) as Hin.
  { unfold Sample.dataset. rewrite !elem_of_cons. auto. }
  split; [reflexivity|]. split; [by vm_compute|].
  split; [by vm_compute|]. split; [exact Hin|].
  apply (partition_gate_matches_held_out Sample.dataset (Sample.fresh false)
           Sample.r1 Sample.r2); [reflexivity | by vm_compute
                                  | by vm_compute | exact Hin].
Defined.

Lemma train_starts_one_job_per_partition_witness :
  run (CrossValidateTransform.train Sample.dataset) (Sample.fresh false) =
    (Ok [(0, [Sample.r1; Sample.r2; Sample.r3]);
         (1, [Sample.r0; Sample.r2; Sample.r3]);
         (2, [Sample.r0; Sample.r1; Sample.r3]);
         (3, [Sample.r0; Sample.r1; Sample.r2])], Sample.cross_validated) ∧
  [(0, [Sample.r1; Sample.r2; Sample.r3]);
   (1, [Sample.r0; Sample.r2; Sample.r3]);
   (2, [Sample.r0; Sample.r1; Sample.r3]);
   (3, [Sample.r0; Sample.r1; Sample.r2])].*1 =
  if bool_decide ((CrossValidateTransform.scan_partitions Sample.dataset).1 < 2)
  then [0]
  else seqZ 0 (CrossValidateTransform.scan_partitions Sample.dataset).1.
Proof.
  split; [exact sample_train_run|].
  exact (train_starts_one_job_per_partition Sample.dataset
           (Sample.fresh false) _ _ sample_train_run).
Defined.

Lemma project_after_train_succeeds_witness :
  run (CrossValidateTransform.train Sample.dataset) (Sample.fresh false) =
    (Ok [(0, [Sample.r1; Sample.r2; Sample.r3]);
         (1, [Sample.r0; Sample.r2; Sample.r3]);
         (2, [Sample.r0; Sample.r1; Sample.r3]);
         (3, [Sample.r0; Sample.r1; Sample.r2])], Sample.cross_validated) ∧
  Sample.r2 ∈ Sample.dataset ∧
  0 ≤ File_get_int (file Sample.r2) "Partition" 0 < 2 ^ 31 - 1 ∧
  ∃ m,
    CrossValidateTransform.transforms Sample.cross_validated
      !! Z.to_nat (File_get_int (file Sample.r2) "Partition" 0) = Some m ∧
    run (CrossValidateTransform.project Sample.r2 Sample.unknown)
        Sample.cross_validated =
    (Ok (Transform_project m Sample.r2 Sample.unknown),
     Sample.cross_validated).
Proof.
  assert (Sample.r2 ∈ Sample.dataset) as Hin.
  { unfold Sample.dataset. rewrite !elem_of_cons. auto. }
  split; [exact sample_train_run|]. split; [exact Hin|].
  split; [by vm_compute|].
  apply (project_after_train_succeeds Sample.dataset (Sample.fresh false)
           _ _ Sample.r2 Sample.unknown sample_train_run Hin).
  by vm_compute.
Defined.

Lemma train_again_retrains_models_witness :
  CrossValidateTransform.leaveOneOut (Sample.fresh false) = false ∧
  2 ≤ (CrossValidateTransform.scan_partitions Sample.dataset).1 ∧
  ∃ jobs self1 self2,
    run (CrossValidateTransform.train Sample.dataset) (Sample.fresh false)
      = (Ok jobs, self1) ∧
    run (CrossValidateTransform.train Sample.dataset) self1
      = (Ok jobs, self2) ∧
    length (CrossValidateTransform.transforms self2) =
      length (CrossValidateTransform.transforms self1).
Proof.
  split; [reflexivity|]. split; [by vm_compute|].
  destruct (train_again_retrains_models Sample.dataset (Sample.fresh false))
    as (jobs & self1 & self2 & Hrun1 & Hrun2 & Hlen & _);
    [reflexivity | by vm_compute |].
  by exists jobs, self1, self2.
Defined.

Lemma sample_same_subjects :
  Forall2 (λ t t' : Template Z,
             m_metadata (file t) !! "Subject" =
             m_metadata (file t') !! "Subject")
          Sample.dataset Sample.regrouped.
Proof. repeat constructor. Qed.

Lemma leave_one_out_reads_only_subjects_witness :
  Forall2 (λ t t' : Template Z,
             m_metadata (file t) !! "Subject" =
             m_metadata (file t') !! "Subject")
          Sample.dataset Sample.regrouped ∧
  CrossValidateTransform.scan true [] Sample.dataset 3
    (length Sample.dataset) [] =
  CrossValidateTransform.scan true [7] Sample.regrouped 3
    (length Sample.regrouped) [].
Proof.
  split; [exact sample_same_subjects|].
  exact (leave_one_out_reads_only_subjects [] [7] Sample.dataset
           Sample.regrouped 3 sample_same_subjects).
Defined.

Lemma leave_one_out_training_set_witness :
  Forall has_subject Sample.dataset ∧
  ∃ removed,
    CrossValidateTransform.scan true [] Sample.dataset 3
      (length Sample.dataset) [] = Ok removed ∧
    CrossValidateTransform.partition_data true [] Sample.dataset 3 =
      Ok (filter (λ jt, jt.1 ∉ removed)
                 (imap (λ j t, (Z.of_nat j, t)) Sample.dataset)).*2 ∧
    (∀ p, p ∈ removed → 0 ≤ p < QList_size Sample.dataset).
Proof.
  split; [exact sample_dataset_has_subjects|].
  destruct (leave_one_out_training_set [] Sample.dataset 3
              sample_dataset_has_subjects)
    as (removed & Hscan & Hpd & Hrange & _).
  by exists removed.
Defined.

Lemma sample_with_loner_has_subjects :
  Forall has_subject Sample.dataset_with_loner.
Proof. repeat constructor. Qed.

Lemma leave_one_out_removes_single_record_subjects_witness :
  Forall has_subject Sample.dataset_with_loner ∧
  Sample.dataset_with_loner !! 4%nat = Some Sample.loner ∧
  QList_size (TemplateList_find Sample.dataset_with_loner "Subject"
                (File_get_QString (file Sample.loner) "Subject" "")) = 1 ∧
  2 ≤ 2 ∧
  ∃ removed,
    CrossValidateTransform.scan true [] Sample.dataset_with_loner 2
      (length Sample.dataset_with_loner) [] = Ok removed ∧
    Z.of_nat 4 ∈ removed.
Proof.
  split; [exact sample_with_loner_has_subjects|]. split; [reflexivity|].
  split; [by vm_compute|]. split; [lia|].
  apply (leave_one_out_removes_single_record_subjects []
           Sample.dataset_with_loner 2 4 Sample.loner
           sample_with_loner_has_subjects); [reflexivity | by vm_compute | lia].
Defined.

Lemma load_reads_exactly_what_store_wrote_witness :
  store_load_contract Z Z ∧
  QList_size (CrossValidateTransform.transforms Sample.trained) < 2 ^ 31 ∧
  (length (CrossValidateTransform.transforms (Sample.fresh false)) ≤
   length (CrossValidateTransform.transforms Sample.trained))%nat ∧
  ∃ bytes self',
    (∀ stream,
       run (CrossValidateTransform.store stream) Sample.trained
         = (Ok (stream ++ bytes), Sample.trained)) ∧
    run (CrossValidateTransform.load (bytes ++ [9; 9])) (Sample.fresh false)
      = (Ok [9; 9], self') ∧
    Forall2 behaves_as (CrossValidateTransform.transforms self')
                       (CrossValidateTransform.transforms Sample.trained).
Proof.
  split; [exact sample_model_contract|]. split; [by vm_compute|].
  split; [simpl; lia|].
  apply (load_reads_exactly_what_store_wrote Sample.trained
           (Sample.fresh false) [9; 9] sample_model_contract);
    [by vm_compute | simpl; lia].
Defined.

Lemma load_into_larger_ensemble_keeps_extra_models_witness :
  store_load_contract Z Z ∧
  QList_size (CrossValidateTransform.transforms Sample.trained) < 2 ^ 31 ∧
  (length (CrossValidateTransform.transforms Sample.trained) ≤
   length (CrossValidateTransform.transforms Sample.larger))%nat ∧
  ∃ bytes,
    run (CrossValidateTransform.store []) Sample.trained
      = (Ok bytes, Sample.trained) ∧
    length (CrossValidateTransform.transforms
              (run (CrossValidateTransform.load (bytes ++ [7])) Sample.larger).2)
      = length (CrossValidateTransform.transforms Sample.larger).
Proof.
  split; [exact sample_model_contract|]. split; [by vm_compute|].
  split; [simpl; lia|].
  destruct (load_into_larger_ensemble_keeps_extra_models Sample.trained
              Sample.larger [7] sample_model_contract)
    as (bytes & Hstore & Hlen & _); [by vm_compute | simpl; lia |].
  by exists bytes.
Defined.

Lemma sample_gender_keys (key : string) :
  key ∈ ["Gender"; "Gender"] ↔ is_Some (Sample.gender_filter !! key).
Proof.
  unfold Sample.gender_filter. rewrite !elem_of_cons, elem_of_nil.
  destruct (decide (key = "Gender")) as [->|Hne].
  - rewrite lookup_singleton_eq. split; [by eexists | auto].
  - rewrite lookup_singleton_ne by done. split; [tauto | by intros [? ?]].
Qed.

Lemma allowlist_independent_of_key_order_witness :
  (∀ key, key ∈ ["Gender"; "Gender"] ↔
          is_Some (Sample.gender_filter !! key)) ∧
  FilterDistance.compare_keys Sample.gender_filter ["Gender"; "Gender"]
    Sample.female =
  FilterDistance.compare Sample.gender_filter Sample.female Sample.male.
Proof.
  split; [exact sample_gender_keys|].
  exact (allowlist_independent_of_key_order Sample.gender_filter
           ["Gender"; "Gender"] Sample.female Sample.male sample_gender_keys).
Defined.



Lemma metadata_missing_query_is_default_point_witness :
  m_metadata (file Sample.unknown) !! "Age" = None ∧
  QtUtils_toString (qreal_zero, qreal_zero) ≠ "" ∧
  QtUtils_toPoint (QtUtils_toString (qreal_zero, qreal_zero)) = Some (0, 0) ∧
  MetadataDistance.query_value Sample.unknown "Age" =
    QtUtils_toString (qreal_zero, qreal_zero) ∧
  (MetadataDistance.compare ["Age"] Sample.aged_30 Sample.unknown = 0 ↔
   File_get_QString (file Sample.aged_30) "Age" "" = "" ∨
   ∃ v, qreal_to_int (0 : Z) ≤ v ≤ qreal_to_int (0 : Z) ∧
        File_get_QString (file Sample.aged_30) "Age" "" = QString_number v).
Proof.
  split; [reflexivity|]. split; [by vm_compute|]. split; [by vm_compute|].
  apply (metadata_missing_query_is_default_point "Age" Sample.aged_30
           Sample.unknown 0 0); [reflexivity | by vm_compute | by vm_compute].
Defined.

(** A query without "Age" rejects the target "30". *)
Example metadata_missing_query_sample :
  MetadataDistance.compare ["Age"] Sample.aged_30 Sample.unknown = - FLT_MAX.
Proof. by vm_compute. Qed.

Lemma metadata_empty_range_rejects_witness :
  File_get_QString (file Sample.aged_30) "Age" "" ≠ "" ∧
  MetadataDistance.query_value Sample.range_40_20 "Age" ≠ "" ∧
  QtUtils_toPoint (MetadataDistance.query_value Sample.range_40_20 "Age")
    = Some (40, 20) ∧
  qreal_to_int (20 : Z) < qreal_to_int (40 : Z) ∧
  MetadataDistance.compare ["Age"] Sample.aged_30 Sample.range_40_20
    = - FLT_MAX.
Proof.
  split; [by vm_compute|]. split; [by vm_compute|].
  split; [by vm_compute|]. split; [simpl; lia|].
  apply (metadata_empty_range_rejects "Age" Sample.aged_30
           Sample.range_40_20 40 20);
    [by vm_compute | by vm_compute | by vm_compute | simpl; lia].
Defined.

(** ** The metadata comparator on 32-bit ints *)

Section MetadataDistanceInt.
Context {qreal : Type} `{!Qreal qreal} `{!QtUtils qreal}.
Implicit Types (a b : Template qreal).








End MetadataDistanceInt.



(** The scenarios of the comparator, run: "30" against the point (20,40)
    is accepted and against (41,50) rejected; a query without the key is
    compared as the point (0,0); equal strings that are no points are
    accepted and different ones rejected. *)
Example metadata_match_scenarios :
  MetadataDistance.compare_int ["Age"] 16 Sample.aged_30 Sample.range_20_40
    = Some 0 ∧
  MetadataDistance.compare_int ["Age"] 16 Sample.aged_30 Sample.range_41_50
    = Some (- FLT_MAX) ∧
  MetadataDistance.compare_int ["Age"] 16 Sample.aged_30 Sample.unknown
    = Some (- FLT_MAX) ∧
  MetadataDistance.compare_int ["Gender"] 16 Sample.male Sample.male
    = Some 0 ∧
  MetadataDistance.compare_int ["Gender"] 16 Sample.male Sample.female
    = Some (- FLT_MAX).
Proof. by vm_compute. Qed.


(** C5, where it fails: the three models of [Sample.trained], stored and
    loaded into an ensemble of five models, leave five models, not
    three. *)
Lemma load_into_larger_receiver_keeps_its_size :
  run (CrossValidateTransform.store []) Sample.trained =
    (Ok [0; 0; 0; 3; 44; 2; 5], Sample.trained) ∧
  length (CrossValidateTransform.transforms
            (run (CrossValidateTransform.load [0; 0; 0; 3; 44; 2; 5])
                 Sample.larger).2)
  ≠ length (CrossValidateTransform.transforms Sample.trained).
Proof. split; [reflexivity | by vm_compute]. Qed.

Lemma sample_partitions_are_ints (t : Template Z) :
  t ∈ Sample.dataset →
  - 2 ^ 31 ≤ File_get_int (file t) "Partition" 0 < 2 ^ 31.
Proof.
  unfold Sample.dataset. rewrite !elem_of_cons, elem_of_nil.
  intros [->|[->|[->|[->|[]]]]]; by vm_compute.
Qed.

Lemma numPartitions_one_past_largest_witness :
  (∀ t, t ∈ Sample.dataset →
        - 2 ^ 31 ≤ File_get_int (file t) "Partition" 0 < 2 ^ 31) ∧
  0 ≤ (CrossValidateTransform.scan_partitions Sample.dataset).1 < 2 ^ 31 ∧
  (∀ t, t ∈ Sample.dataset →
        File_get_int (file t) "Partition" 0 < 2 ^ 31 - 1 →
        File_get_int (file t) "Partition" 0 <
        (CrossValidateTransform.scan_partitions Sample.dataset).1).
Proof.
  split; [exact sample_partitions_are_ints|].
  destruct (numPartitions_one_past_largest Sample.dataset
              sample_partitions_are_ints) as (_ & Hrange & Hlt & _).
  by split.
Defined.

(** A record in the partition of the largest [int] makes
    [partitions.last()+1] wrap: it does not count. *)
Example numPartitions_wraps_at_int_max :
  (CrossValidateTransform.scan_partitions [Sample.last_partition]).1 = 0 ∧
  (CrossValidateTransform.scan_partitions
     (Sample.dataset ++ [Sample.last_partition])).1 = 4.
Proof. by vm_compute. Qed.
